(** * eth-json-rpc-infura (Brave fork): the request-forwarding and retry engine

    A shallow embedding of [createInfuraMiddleware], [performFetch],
    [getCacheHeader] and [fetchConfigFromReq].  The text followed is the
    first module of [src/unnamed/part_000]; the retry loop and [performFetch]
    of [src/src/index.js] are the same statements.

    JavaScript strings are kept as their UTF-8 bytes ([string]), numbers as
    integers ([Z]) with a separate NaN.  Objects are association lists in
    property order and carry data properties only. *)

From Stdlib Require Import ZArith List String Ascii Bool Lia DecimalString.
Import ListNotations.
Local Open Scope string_scope.
Local Open Scope Z_scope.
Set Warnings "-register-all".

(** ** JavaScript values *)

Inductive JsValue : Type :=
| JUndefined
| JNull
| JBool (b : bool)
| JNum (z : Z)
| JNaN
| JStr (s : string)
| JArr (elems : list JsValue)
| JObj (props : list (string * JsValue)).

Definition JsObject := list (string * JsValue).

(** [!!v] *)
Definition truthy (v : JsValue) : bool :=
  match v with
  | JUndefined | JNull | JNaN => false
  | JBool b => b
  | JNum z => negb (z =? 0)
  | JStr s => negb (String.eqb s "")
  | JArr _ | JObj _ => true
  end.

(** [a || b] *)
Definition js_or (a b : JsValue) : JsValue := if truthy a then a else b.

(** [typeof v] *)
Definition typeof (v : JsValue) : string :=
  match v with
  | JUndefined => "undefined"
  | JBool _ => "boolean"
  | JNum _ | JNaN => "number"
  | JStr _ => "string"
  | JNull | JArr _ | JObj _ => "object"
  end.

Definition Number_toString (z : Z) : string := NilZero.string_of_int (Z.to_int z).

(** The string conversion of template literals and of [.toString()]. *)
Fixpoint ToString (v : JsValue) : string :=
  match v with
  | JUndefined => "undefined"
  | JNull => "null"
  | JBool true => "true"
  | JBool false => "false"
  | JNum z => Number_toString z
  | JNaN => "NaN"
  | JStr s => s
  | JArr l =>
      String.concat ","
        (map (fun e => match e with
                       | JUndefined | JNull => ""
                       | _ => ToString e
                       end) l)
  | JObj _ => "[object Object]"
  end.

(** [obj[key]]: the first binding, [undefined] when there is none. *)
Fixpoint getField (o : JsObject) (key : string) : JsValue :=
  match o with
  | [] => JUndefined
  | (k, v) :: rest => if String.eqb k key then v else getField rest key
  end.

(** [obj[key] = v] *)
Fixpoint setField (o : JsObject) (key : string) (v : JsValue) : JsObject :=
  match o with
  | [] => [(key, v)]
  | (k, w) :: rest =>
      if String.eqb k key then (k, v) :: rest else (k, w) :: setField rest key v
  end.

(** [a === b] against a string literal *)
Definition strict_eq_str (v : JsValue) (lit : string) : bool :=
  match v with
  | JStr s => String.eqb s lit
  | _ => false
  end.

(** [hay.includes(needle)]: case-sensitive substring containment. *)
Fixpoint includes (needle hay : string) : bool :=
  String.prefix needle hay
  || match hay with
     | EmptyString => false
     | String _ rest => includes needle rest
     end.

(** ** Error objects *)

(** The errors of eth-json-rpc-errors that [performFetch] builds. *)
Inductive RpcErr : Type :=
| MethodNotFound                  (* rpcErrors.methodNotFound() *)
| Internal (msg : string).        (* rpcErrors.internal(msg) *)

Inductive JsError : Type :=
| Native (name message : string)  (* Error, TypeError, SyntaxError, FetchError, ... *)
| Rpc (e : RpcErr).

(** [Error.prototype.toString] *)
Definition Error_toString (name message : string) : string :=
  if String.eqb name "" then message
  else if String.eqb message "" then name
  else name ++ ": " ++ message.

Definition TypeError (message : string) : JsError := Native "TypeError" message.
Definition SyntaxError (message : string) : JsError := Native "SyntaxError" message.

Definition dquote : string := String "034"%char EmptyString.
Definition newline : string := String "010"%char EmptyString.

Definition RETRIABLE_ERRORS : list string :=
  [ "Gateway timeout";
    "ETIMEDOUT";
    "ECONNRESET";
    "SyntaxError" ].

(** [RETRIABLE_ERRORS.some(phrase => text.includes(phrase))] *)
Definition has_retriable_phrase (text : string) : bool :=
  existsb (fun phrase => includes phrase text) RETRIABLE_ERRORS.

(** ** Completions, the store and the monad of the async functions *)

Inductive Completion (A : Type) : Type :=
| Normal (a : A)
| Throw (e : JsError).
Arguments Normal {A} a.
Arguments Throw {A} e.

Inductive Event : Type :=
| EvFetch (url : string) (params : JsObject)    (* fetch(fetchUrl, fetchParams) *)
| EvSetTimeout (ms : Z).                        (* setTimeout(resolve, ms) *)

(** The module's two [let] globals, the response object [res] of the call
    being served, and what the call has done to the outside so far. *)
Record Store : Type := mkStore {
  BRAVE_KEY : string;
  BRAVE_INFURA_PROJECT_ID : string;
  res : JsObject;
  trace : list Event
}.

Definition M (A : Type) : Type := Store -> Completion A * Store.

Definition ret {A} (a : A) : M A := fun st => (Normal a, st).
Definition throw {A} (e : JsError) : M A := fun st => (Throw e, st).
Definition bind {A B} (m : M A) (k : A -> M B) : M B :=
  fun st =>
    match m st with
    | (Normal a, st') => k a st'
    | (Throw e, st') => (Throw e, st')
    end.
Definition lift {A} (c : Completion A) : M A := fun st => (c, st).

Notation "x <- m ;; k" := (bind m (fun x => k))
  (at level 61, m at next level, right associativity).
Notation "m ;;; k" := (bind m (fun _ => k))
  (at level 61, right associativity).

Definition set_res (key : string) (v : JsValue) : M unit :=
  fun st =>
    (Normal tt,
     mkStore (BRAVE_KEY st) (BRAVE_INFURA_PROJECT_ID st)
             (setField (res st) key v) (trace st)).

Definition emit (ev : Event) : M unit :=
  fun st =>
    (Normal tt,
     mkStore (BRAVE_KEY st) (BRAVE_INFURA_PROJECT_ID st)
             (res st) (trace st ++ [ev])).

Definition is_fetch (ev : Event) : bool :=
  match ev with EvFetch _ _ => true | EvSetTimeout _ => false end.

(** The number of [fetch] calls recorded in a trace. *)
Definition fetch_count (t : list Event) : nat := List.length (filter is_fetch t).

(** The timers armed in a trace. *)
Definition timers (t : list Event) : list Z :=
  flat_map (fun ev => match ev with EvSetTimeout ms => [ms] | EvFetch _ _ => [] end) t.

(** The store once a [fetch] of [url] with [params] has been issued. *)
Definition after_fetch (url : string) (params : JsObject) (st : Store) : Store :=
  snd (emit (EvFetch url params) st).

(** ... and once [n] of them have been. *)
Definition after_fetches (n : nat) (url : string) (params : JsObject) (st : Store)
  : Store :=
  Nat.iter n (after_fetch url params) st.

(** [await v] for a value [v] that is not a thenable: the value comes
    back as it is and nothing of it is run. *)
Definition await_value {A} (v : A) : M A := ret v.

Definition setTimeout (ms : Z) : M unit := emit (EvSetTimeout ms).

(** The function expression of the retry loop:
    [function () { return new Promise((resolve) => { setTimeout(resolve, 1000) }) }] *)
Definition delay : M unit := setTimeout 1000.

(** ** HTTP responses *)

Record HttpResponse : Type := mkResponse {
  status : Z;
  text : string      (* what [await response.text()] gives *)
}.

(** [response.ok] of the Fetch standard: the status is in 200..299. *)
Definition ok (r : HttpResponse) : bool :=
  (200 <=? status r) && (status r <=? 299).

Inductive FetchOutcome : Type :=
| Rejected (e : JsError)
| Resolved (r : HttpResponse).

(** ** encodeURIComponent *)

Definition uriUnreserved (c : ascii) : bool :=
  let n := nat_of_ascii c in
  ((65 <=? n) && (n <=? 90) || (97 <=? n) && (n <=? 122) || (48 <=? n) && (n <=? 57)
   || existsb (Nat.eqb n) [45; 95; 46; 33; 126; 42; 39; 40; 41])%nat.

Definition hexDigit (n : nat) : ascii :=
  nth n (list_ascii_of_string "0123456789ABCDEF") "0"%char.

Definition percentEncode (c : ascii) : string :=
  let n := nat_of_ascii c in
  String "%" (String (hexDigit (n / 16)) (String (hexDigit (n mod 16)) EmptyString)).

(** Every byte outside the unreserved set becomes [%XX]. *)
Fixpoint encodeURIComponent (s : string) : string :=
  match s with
  | EmptyString => EmptyString
  | String c rest =>
      if uriUnreserved c then String c (encodeURIComponent rest)
      else percentEncode c ++ encodeURIComponent rest
  end.

(** What [encodeURIComponent] writes for one byte. *)
Definition encodeByte (c : ascii) : string :=
  if uriUnreserved c then String c EmptyString else percentEncode c.

(** ** createInfuraMiddleware: construction *)

(** The [opts] argument; a property that is absent is [JUndefined]. *)
Record Options : Type := mkOptions {
  opt_network : JsValue;
  opt_maxAttempts : JsValue;
  opt_source : JsValue;
  opt_dev : JsValue
}.

(** The variables the returned async function closes over. *)
Record Middleware : Type := mkMiddleware {
  network : JsValue;
  maxAttempts : JsValue;
  source : JsValue;
  dev : JsValue
}.

Definition createInfuraMiddleware (opts : Options) : Completion Middleware :=
  let network := js_or (opt_network opts) (JStr "mainnet") in
  let maxAttempts := js_or (opt_maxAttempts opts) (JNum 5) in
  let source := opt_source opts in
  if negb (truthy maxAttempts) then
    Throw (Native "Error"
             ("Invalid value for 'maxAttempts': " ++ dquote ++ ToString maxAttempts
              ++ dquote ++ " (" ++ typeof maxAttempts ++ ")"))
  else
    Normal (mkMiddleware network maxAttempts source (opt_dev opts)).

Record FetchConfig : Type := mkFetchConfig {
  fetchUrl : string;
  fetchParams : JsObject
}.

Definition createInternalError (msg : string) : JsError := Rpc (Internal msg).

(** Two helpers the module declares and does not call. *)
Definition createRatelimitError : JsError :=
  createInternalError "Request is being rate limited.".

Definition createTimeoutError : JsError :=
  createInternalError
    ("Gateway timeout. The request took too long to process. "
     ++ "This can happen when querying logs over too wide a block range.").

(** [v[key]] for the keys read here ([result], [error]), which no
    prototype defines. *)
Definition getProp (v : JsValue) (key : string) : Completion JsValue :=
  match v with
  | JUndefined => Throw (TypeError ("Cannot read property '" ++ key ++ "' of undefined"))
  | JNull => Throw (TypeError ("Cannot read property '" ++ key ++ "' of null"))
  | JObj props => Normal (getField props key)
  | _ => Normal JUndefined
  end.

(** [arr.includes(v)] on an array of strings *)
Definition Array_includes (arr : list string) (v : JsValue) : bool :=
  match v with
  | JStr s => existsb (String.eqb s) arr
  | _ => false
  end.

(** strips out extra keys that could be rejected by strict nodes like parity *)
Definition normalizeReq (req : JsObject) : JsObject :=
  [ ("id", getField req "id");
    ("jsonrpc", getField req "jsonrpc");
    ("method", getField req "method");
    ("params", getField req "params") ].

Definition getCacheHeader (method : JsValue) (req : JsObject)
  : Completion (option (string * JsValue)) :=
  if strict_eq_str method "eth_getBlockByNumber" then
    match getField req "params" with
    | JUndefined => Throw (TypeError "Cannot read property 'toString' of undefined")
    | JNull => Throw (TypeError "Cannot read property 'toString' of null")
    | params => Normal (Some ("X-Eth-Get-Block", JStr (ToString params)))
    end
  else if strict_eq_str method "eth_blockNumber" then
    Normal (Some ("X-Eth-Block", JStr "true"))
  else Normal None.

Section Middleware.

(** What the module takes from outside. *)
Variable postMethods : list string.                (* require('./postMethods') *)
Variable JSON_stringify : JsValue -> JsValue.      (* a string, or undefined *)
Variable JSON_parse : string -> string + JsValue.  (* inl: message of the SyntaxError thrown *)
Variable StringToNumber : string -> option Z.      (* None is NaN *)
Variable rpcErrorString : RpcErr -> string.        (* toString() of an eth-json-rpc-errors error *)
Variable transport : nat -> string -> JsObject -> FetchOutcome.
                                                   (* cross-fetch, by the number of earlier calls *)
Variable chrome_getProjectID : string.             (* what chrome.braveWallet.getProjectID passes *)
Variable chrome_getBraveKey : option string.       (* None: braveWallet has no getBraveKey *)

(** [err.toString()] *)
Definition toString (err : JsError) : string :=
  match err with
  | Native name message => Error_toString name message
  | Rpc e => rpcErrorString e
  end.

(** Numeric conversion; [None] is NaN. *)
Definition ToNumber (v : JsValue) : option Z :=
  match v with
  | JUndefined | JNaN => None
  | JNull => Some 0
  | JBool b => Some (if b then 1 else 0)
  | JNum z => Some z
  | JStr s => StringToNumber s
  | JArr _ | JObj _ => StringToNumber (ToString v)
  end.

Definition setProjectId : M unit :=
  fun st =>
    (Normal tt, mkStore (BRAVE_KEY st) chrome_getProjectID (res st) (trace st)).

Definition setBraveKey : M unit :=
  fun st =>
    match chrome_getBraveKey with
    | None => (Normal tt, st)
    | Some key =>
        (Normal tt, mkStore key (BRAVE_INFURA_PROJECT_ID st) (res st) (trace st))
    end.

(** [g] gives the two module globals the function reads. *)
Definition fetchConfigFromReq (g : Store) (network : JsValue) (req : JsObject)
    (source dev : JsValue) : Completion FetchConfig :=
  let requestOrigin := js_or (getField req "origin") (JStr "internal") in
  let cleanReq :=
    [ ("id", getField req "id");
      ("jsonrpc", getField req "jsonrpc");
      ("method", getField req "method");
      ("params", getField req "params") ] in
  let method := getField cleanReq "method" in
  let params := getField cleanReq "params" in
  let isPostMethod := Array_includes postMethods method in
  let host := if truthy dev then "staging-infura.bravesoftware" else "infura.brave" in
  let fetchUrl :=
    "https://" ++ ToString network ++ "-" ++ host ++ ".com/" ++ BRAVE_INFURA_PROJECT_ID g in
  if isPostMethod then
    let headers :=
      ([ ("Accept", JStr "application/json");
         ("Content-Type", JStr "application/json");
         ("X-Eth-Method", method) ]
       ++ (if truthy source
           then [("Infura-Source", JStr (ToString source ++ "/" ++ ToString requestOrigin))]
           else []))%list in
    match getCacheHeader method cleanReq with
    | Throw e => Throw e
    | Normal cacheHeader =>
        let headers :=
          match cacheHeader with
          | Some (name, value) => setField headers name value
          | None => headers
          end in
        let headers :=
          if truthy (JStr (BRAVE_KEY g))
          then setField headers "x-brave-key" (JStr (BRAVE_KEY g))
          else headers in
        Normal (mkFetchConfig fetchUrl
                  [ ("method", JStr "POST");
                    ("headers", JObj headers);
                    ("body", JSON_stringify (JObj cleanReq)) ])
    end
  else
    let fetchParams :=
      ([("method", JStr "GET")]
       ++ (if truthy source
           then [("headers",
                  JObj [("Infura-Source",
                         JStr (ToString source ++ "/" ++ ToString requestOrigin))])]
           else []))%list in
    let paramsString := encodeURIComponent (ToString (JSON_stringify params)) in
    Normal (mkFetchConfig (fetchUrl ++ "/" ++ ToString method ++ "?params=" ++ paramsString)
              fetchParams).

(** [await fetch(fetchUrl, fetchParams)] followed by [await response.text()] *)
Definition fetch (cfg : FetchConfig) : M HttpResponse :=
  fun st =>
    let n := fetch_count (trace st) in
    let st' := after_fetch (fetchUrl cfg) (fetchParams cfg) st in
    match transport n (fetchUrl cfg) (fetchParams cfg) with
    | Rejected e => (Throw e, st')
    | Resolved r => (Normal r, st')
    end.

Definition performFetch (network : JsValue) (req : JsObject) (source dev : JsValue)
  : M unit :=
  cfg <- (fun st => (fetchConfigFromReq st network req source dev, st)) ;;
  response <- fetch cfg ;;
  let rawData := text response in
  if negb (ok response) then
    if status response =? 405 then throw (Rpc MethodNotFound)
    else if status response =? 418 then
      throw (createInternalError "Request is being rate limited.")
    else if (status response =? 503) || (status response =? 504) then
      throw (createInternalError "Gateway timeout, request took too long to process.")
    else throw (createInternalError rawData)
  else if strict_eq_str (getField req "method") "eth_getBlockByNumber"
          && String.eqb rawData "Not Found" then
    set_res "result" JNull
  else
    data <- lift (match JSON_parse rawData with
                  | inl message => Throw (SyntaxError message)
                  | inr v => Normal v
                  end) ;;
    result <- lift (getProp data "result") ;;
    set_res "result" result ;;;
    error <- lift (getProp data "error") ;;
    set_res "error" error.

(** The statements of [performFetch] that follow the reading of the response. *)
Definition onResponse (req : JsObject) (response : HttpResponse) : M unit :=
  let rawData := text response in
  if negb (ok response) then
    if status response =? 405 then throw (Rpc MethodNotFound)
    else if status response =? 418 then
      throw (createInternalError "Request is being rate limited.")
    else if (status response =? 503) || (status response =? 504) then
      throw (createInternalError "Gateway timeout, request took too long to process.")
    else throw (createInternalError rawData)
  else if strict_eq_str (getField req "method") "eth_getBlockByNumber"
          && String.eqb rawData "Not Found" then
    set_res "result" JNull
  else
    data <- lift (match JSON_parse rawData with
                  | inl message => Throw (SyntaxError message)
                  | inr v => Normal v
                  end) ;;
    result <- lift (getProp data "result") ;;
    set_res "result" result ;;;
    error <- lift (getProp data "error") ;;
    set_res "error" error.

(** [attempt <= maxAttempts] *)
Definition js_le (attempt : Z) (maxAttempts : JsValue) : bool :=
  match ToNumber maxAttempts with
  | Some m => attempt <=? m
  | None => false
  end.

(** [!(maxAttempts - attempt)] *)
Definition no_remainingAttempts (maxAttempts : JsValue) (attempt : Z) : bool :=
  match ToNumber maxAttempts with
  | Some m => m - attempt =? 0
  | None => true
  end.

Definition exhaustedMessage (err : JsError) : string :=
  "InfuraProvider - cannot complete request, all retries have been exhausted."
  ++ newline ++ "Original Error:" ++ newline ++ toString err ++ newline ++ newline.

(** The [for] loop of the async function; [None] when the fuel runs out. *)
Fixpoint attemptLoop (mw : Middleware) (req : JsObject) (fuel : nat) (attempt : Z)
    (st : Store) : option (Completion unit * Store) :=
  if js_le attempt (maxAttempts mw) then
    match fuel with
    | O => None
    | S fuel' =>
        match performFetch (network mw) req (source mw) (dev mw) st with
        | (Normal _, st') => Some (Normal tt, st')                  (* break *)
        | (Throw err, st') =>
            let canRetry := has_retriable_phrase (toString err) in
            if negb canRetry then Some (Throw err, st')
            else if no_remainingAttempts (maxAttempts mw) attempt then
              Some (Throw (Native "Error" (exhaustedMessage err)), st')
            else
              match await_value delay st' with
              | (_, st'') => attemptLoop mw req fuel' (attempt + 1) st''
              end
        end
    end
  else Some (Normal tt, st).

(** One iteration for each value of [attempt] from 1 to [maxAttempts]. *)
Definition loopFuel (mw : Middleware) : nat :=
  match ToNumber (maxAttempts mw) with
  | Some m => Z.to_nat m
  | None => O
  end.

(** The two [if (!...) await set...()] statements that open the async
    function. *)
Definition ensureCredentials (st : Store) : Store :=
  let st1 :=
    if String.eqb (BRAVE_INFURA_PROJECT_ID st) "" then snd (setProjectId st) else st in
  if String.eqb (BRAVE_KEY st1) "" then snd (setBraveKey st1) else st1.

(** The async function handed to [createAsyncMiddleware]. *)
Definition handler (mw : Middleware) (req : JsObject) (st : Store)
  : option (Completion unit * Store) :=
  attemptLoop mw req (loopFuel mw) 1 (ensureCredentials st).

End Middleware.

(** ** Reading a URL back: what the receiving side does

    These are not functions of the module; they are what the round-trip
    law of the query string is stated with. *)

Definition hexValue (c : ascii) : option nat :=
  let n := nat_of_ascii c in
  (if (48 <=? n) && (n <=? 57) then Some (n - 48)
   else if (65 <=? n) && (n <=? 70) then Some (n - 55)
   else if (97 <=? n) && (n <=? 102) then Some (n - 87)
   else None)%nat.

(** Percent-decoding; [None] is the URIError of a malformed escape. *)
Fixpoint decodeURIComponent (s : string) : option string :=
  match s with
  | EmptyString => Some EmptyString
  | String c rest =>
      if Ascii.eqb c "%" then
        match rest with
        | String h1 (String h2 rest') =>
            match hexValue h1, hexValue h2, decodeURIComponent rest' with
            | Some a, Some b, Some t => Some (String (ascii_of_nat (16 * a + b)) t)
            | _, _, _ => None
            end
        | _ => None
        end
      else option_map (String c) (decodeURIComponent rest)
  end.

(** The text before the first [c] and the text after it. *)
Fixpoint split_first (c : ascii) (s : string) : option (string * string) :=
  match s with
  | EmptyString => None
  | String d rest =>
      if Ascii.eqb d c then Some (EmptyString, rest)
      else match split_first c rest with
           | Some (a, b) => Some (String d a, b)
           | None => None
           end
  end.

(** [s.split(c)] *)
Fixpoint split_all (c : ascii) (s : string) : list string :=
  match s with
  | EmptyString => [EmptyString]
  | String d rest =>
      if Ascii.eqb d c then EmptyString :: split_all c rest
      else match split_all c rest with
           | x :: xs => String d x :: xs
           | [] => [String d EmptyString]
           end
  end.

(** The query of a URL: after the first [?], the fragment (from the first
    [#]) dropped first. *)
Definition url_query (url : string) : string :=
  let no_fragment :=
    match split_first "#" url with Some (a, _) => a | None => url end in
  match split_first "?" no_fragment with
  | Some (_, q) => q
  | None => EmptyString
  end.

Definition query_pair (segment : string) : string * string :=
  match split_first "=" segment with
  | Some (k, v) => (k, v)
  | None => (segment, EmptyString)
  end.

(** The raw value of the first [name=value] pair of the query. *)
Definition url_param (url name : string) : option string :=
  match find (fun kv => String.eqb (fst kv) name)
             (map query_pair (split_all "&" (url_query url))) with
  | Some (_, v) => Some v
  | None => None
  end.

(** The [params] query value, percent-decoded and then parsed. *)
Definition params_read_back (JSON_parse : string -> string + JsValue) (url : string)
  : option JsValue :=
  match url_param url "params" with
  | None => None
  | Some raw =>
      match decodeURIComponent raw with
      | None => None
      | Some t => match JSON_parse t with inr v => Some v | inl _ => None end
      end
  end.

(** [c] does not occur in [s]. *)
Fixpoint lacks (c : ascii) (s : string) : bool :=
  match s with
  | EmptyString => true
  | String d rest => negb (Ascii.eqb d c) && lacks c rest
  end.

(** No [?] and no [#] in [s]. *)
Definition no_url_delimiter (s : string) : bool := lacks "?" s && lacks "#" s.

(** [v] survives [JSON.stringify] followed by [JSON.parse]. *)
Definition json_roundtrips (JSON_stringify : JsValue -> JsValue)
    (JSON_parse : string -> string + JsValue) (v : JsValue) : Prop :=
  exists s, JSON_stringify v = JStr s /\ JSON_parse s = inr v.

(** ** A sample runtime

    One instance of what the module takes from outside, to run the
    definitions on concrete requests: a compact JSON printer and reader
    (integers only), a POST allow-list, string forms of the RPC errors, and
    a few transports. *)

Module Sample.

Definition backslash : string := String "092"%char EmptyString.

Definition lowerHexDigit (n : nat) : ascii :=
  nth n (list_ascii_of_string "0123456789abcdef") "0"%char.

Definition escapeChar (c : ascii) : string :=
  let n := nat_of_ascii c in
  (if n =? 34 then backslash ++ dquote
   else if n =? 92 then backslash ++ backslash
   else if n =? 8 then backslash ++ "b"
   else if n =? 9 then backslash ++ "t"
   else if n =? 10 then backslash ++ "n"
   else if n =? 12 then backslash ++ "f"
   else if n =? 13 then backslash ++ "r"
   else if n <? 32 then
     backslash ++ "u00"
     ++ String (lowerHexDigit (n / 16)) (String (lowerHexDigit (n mod 16)) EmptyString)
   else String c EmptyString)%nat.

Fixpoint escape (s : string) : string :=
  match s with
  | EmptyString => EmptyString
  | String c rest => escapeChar c ++ escape rest
  end.

Definition quote (s : string) : string := dquote ++ escape s ++ dquote.

(** [None] where JSON.stringify gives [undefined]. *)
Fixpoint print (v : JsValue) : option string :=
  match v with
  | JUndefined => None
  | JNull | JNaN => Some "null"
  | JBool true => Some "true"
  | JBool false => Some "false"
  | JNum z => Some (Number_toString z)
  | JStr s => Some (quote s)
  | JArr l =>
      Some ("[" ++ String.concat ","
                     (map (fun e => match print e with Some t => t | None => "null" end) l)
                ++ "]")
  | JObj props =>
      Some ("{" ++ String.concat ","
                     (flat_map (fun kv => match kv with
                                          | (k, w) =>
                                              match print w with
                                              | Some t => [quote k ++ ":" ++ t]
                                              | None => []
                                              end
                                          end) props)
                ++ "}")
  end.

Definition JSON_stringify (v : JsValue) : JsValue :=
  match print v with
  | Some s => JStr s
  | None => JUndefined
  end.

Definition is_ws (c : ascii) : bool :=
  existsb (Nat.eqb (nat_of_ascii c)) [32; 9; 10; 13]%nat.

Fixpoint skip_ws (s : string) : string :=
  match s with
  | String c rest => if is_ws c then skip_ws rest else s
  | EmptyString => EmptyString
  end.

Definition digitValue (c : ascii) : option Z :=
  let n := nat_of_ascii c in
  if ((48 <=? n) && (n <=? 57))%nat then Some (Z.of_nat n - 48) else None.

Fixpoint read_digits (s : string) (acc : Z) : Z * string :=
  match s with
  | String c rest =>
      match digitValue c with
      | Some d => read_digits rest (10 * acc + d)
      | None => (acc, s)
      end
  | EmptyString => (acc, EmptyString)
  end.

Definition unescape (c : ascii) : option ascii :=
  let n := nat_of_ascii c in
  (if n =? 34 then Some c
   else if n =? 92 then Some c
   else if n =? 47 then Some c
   else if n =? 98 then Some "008"%char
   else if n =? 116 then Some "009"%char
   else if n =? 110 then Some "010"%char
   else if n =? 102 then Some "012"%char
   else if n =? 114 then Some "013"%char
   else None)%nat.

(** The characters of a string literal after its opening quote, and the
    text after its closing quote. *)
Fixpoint read_chars (s : string) : option (string * string) :=
  match s with
  | EmptyString => None
  | String c rest =>
      if Ascii.eqb c "034" then Some (EmptyString, rest)
      else if Ascii.eqb c "092" then
        match rest with
        | String "u" (String "0" (String "0" (String h1 (String h2 rest')))) =>
            match hexValue h1, hexValue h2, read_chars rest' with
            | Some a, Some b, Some (t, r) =>
                Some (String (ascii_of_nat (16 * a + b)) t, r)
            | _, _, _ => None
            end
        | String e rest' =>
            match unescape e, read_chars rest' with
            | Some ch, Some (t, r) => Some (String ch t, r)
            | _, _ => None
            end
        | EmptyString => None
        end
      else if (nat_of_ascii c <? 32)%nat then None
      else match read_chars rest with
           | Some (t, r) => Some (String c t, r)
           | None => None
           end
  end.

Inductive Mode : Type :=
| MValue
| MElems (acc : list JsValue)
| MMembers (acc : list (string * JsValue)).

Definition drop (n : nat) (s : string) : string := substring n (String.length s - n) s.

Fixpoint read (fuel : nat) (mode : Mode) (s : string) : option (JsValue * string) :=
  match fuel with
  | O => None
  | S fuel' =>
      let s := skip_ws s in
      match mode with
      | MValue =>
          match s with
          | EmptyString => None
          | String c rest =>
              if Ascii.eqb c "034" then
                match read_chars rest with
                | Some (t, r) => Some (JStr t, r)
                | None => None
                end
              else if Ascii.eqb c "[" then
                match skip_ws rest with
                | String "]" r => Some (JArr [], r)
                | _ => read fuel' (MElems []) rest
                end
              else if Ascii.eqb c "{" then
                match skip_ws rest with
                | String "}" r => Some (JObj [], r)
                | _ => read fuel' (MMembers []) rest
                end
              else if String.prefix "null" s then Some (JNull, drop 4 s)
              else if String.prefix "true" s then Some (JBool true, drop 4 s)
              else if String.prefix "false" s then Some (JBool false, drop 5 s)
              else if Ascii.eqb c "-" then
                match rest with
                | String d _ =>
                    match digitValue d with
                    | Some _ => let (z, r) := read_digits rest 0 in Some (JNum (- z), r)
                    | None => None
                    end
                | EmptyString => None
                end
              else
                match digitValue c with
                | Some _ => let (z, r) := read_digits s 0 in Some (JNum z, r)
                | None => None
                end
          end
      | MElems acc =>
          match read fuel' MValue s with
          | Some (v, r) =>
              match skip_ws r with
              | String "," r' => read fuel' (MElems (acc ++ [v])) r'
              | String "]" r' => Some (JArr (acc ++ [v]), r')
              | _ => None
              end
          | None => None
          end
      | MMembers acc =>
          match s with
          | String "034" rest =>
              match read_chars rest with
              | Some (k, r) =>
                  match skip_ws r with
                  | String ":" r' =>
                      match read fuel' MValue r' with
                      | Some (v, r'') =>
                          match skip_ws r'' with
                          | String "," r3 => read fuel' (MMembers (acc ++ [(k, v)])) r3
                          | String "}" r3 => Some (JObj (acc ++ [(k, v)]), r3)
                          | _ => None
                          end
                      | None => None
                      end
                  | _ => None
                  end
              | None => None
              end
          | _ => None
          end
      end
  end.

Definition JSON_parse (s : string) : string + JsValue :=
  match read (S (String.length s)) MValue s with
  | Some (v, r) =>
      match skip_ws r with
      | EmptyString => inr v
      | _ => inl "Unexpected token in JSON"
      end
  | None => inl "Unexpected token in JSON"
  end.

(** Decimal digits only; the empty string is 0. *)
Definition StringToNumber (s : string) : option Z :=
  match read_digits s 0 with
  | (z, EmptyString) => Some z
  | _ => None
  end.

Definition rpcErrorString (e : RpcErr) : string :=
  match e with
  | MethodNotFound => "Error: The method does not exist / is not available."
  | Internal msg => "Error: " ++ msg
  end.

Definition postMethods : list string :=
  [ "eth_call"; "eth_estimateGas"; "eth_getLogs"; "eth_sendRawTransaction";
    "eth_getBlockByNumber"; "eth_blockNumber" ].

Definition text_of (v : JsValue) : string := ToString (JSON_stringify v).

Definition okBody : string :=
  text_of (JObj [("jsonrpc", JStr "2.0"); ("id", JNum 1); ("result", JStr "0x10")]).

(** Every call is refused with a connection timeout. *)
Definition timingOut : nat -> string -> JsObject -> FetchOutcome :=
  fun _ _ _ => Rejected (Native "Error" "ETIMEDOUT").

Definition denied : nat -> string -> JsObject -> FetchOutcome :=
  fun _ _ _ => Rejected (Native "Error" "permission denied").

(** Two connection resets, then a 200 with a JSON-RPC result. *)
Definition thirdTimeLucky : nat -> string -> JsObject -> FetchOutcome :=
  fun n _ _ =>
    if (n <? 2)%nat then Rejected (Native "FetchError" "socket hang up, reason: ECONNRESET")
    else Resolved (mkResponse 200 okBody).

(** One connection timeout, then a 200 with a JSON-RPC result. *)
Definition secondTimeLucky : nat -> string -> JsObject -> FetchOutcome :=
  fun n _ _ =>
    if (n <? 1)%nat then Rejected (Native "Error" "ETIMEDOUT")
    else Resolved (mkResponse 200 okBody).

Definition answering (r : HttpResponse) : nat -> string -> JsObject -> FetchOutcome :=
  fun _ _ _ => Resolved r.

Definition freshStore : Store :=
  mkStore "" "" [("id", JNum 1); ("jsonrpc", JStr "2.0")] [].

Definition readyStore : Store :=
  mkStore "" "PID" [("id", JNum 1); ("jsonrpc", JStr "2.0")] [].

Definition blockRequest : JsObject :=
  [ ("id", JNum 1); ("jsonrpc", JStr "2.0"); ("method", JStr "eth_getBlockByNumber");
    ("params", JArr [JStr "0x1b4"; JBool true]); ("origin", JStr "example.org");
    ("skipCache", JBool true) ].

Definition balanceRequest : JsObject :=
  [ ("id", JNum 7); ("jsonrpc", JStr "2.0"); ("method", JStr "eth_getBalance");
    ("params", JArr [JStr "0xab"; JStr "latest"]) ].

(** What [fetchConfigFromReq] builds for [blockRequest] and for
    [balanceRequest] (network mainnet, source brave) once the project id is
    [PID]. *)
Definition blockConfig : FetchConfig :=
  mkFetchConfig "https://mainnet-infura.brave.com/PID"
    [ ("method", JStr "POST");
      ("headers",
       JObj [ ("Accept", JStr "application/json");
              ("Content-Type", JStr "application/json");
              ("X-Eth-Method", JStr "eth_getBlockByNumber");
              ("Infura-Source", JStr "brave/example.org");
              ("X-Eth-Get-Block", JStr "0x1b4,true") ]);
      ("body", JSON_stringify (JObj (normalizeReq blockRequest))) ].

Definition balanceConfig : FetchConfig :=
  mkFetchConfig
    "https://mainnet-infura.brave.com/PID/eth_getBalance?params=%5B%220xab%22%2C%22latest%22%5D"
    [ ("method", JStr "GET");
      ("headers", JObj [("Infura-Source", JStr "brave/internal")]) ].

(** A middleware for mainnet with source brave. *)
Definition middleware (maxAttempts : Z) : Middleware :=
  mkMiddleware (JStr "mainnet") (JNum maxAttempts) (JStr "brave") JUndefined.

(** The async function and [performFetch] over the sample runtime, the
    wallet giving the project id [PID] and no key. *)
Definition run (transport : nat -> string -> JsObject -> FetchOutcome)
    (mw : Middleware) (req : JsObject) (st : Store) : option (Completion unit * Store) :=
  handler postMethods JSON_stringify JSON_parse StringToNumber rpcErrorString transport
          "PID" None mw req st.

Definition attempt (transport : nat -> string -> JsObject -> FetchOutcome)
    (mw : Middleware) (req : JsObject) : M unit :=
  performFetch postMethods JSON_stringify JSON_parse transport
               (network mw) req (source mw) (dev mw).

End Sample.

(** ** The earlier translator

    The second module of [src/unnamed/part_000], which talks to infura.io:
    its [getCacheHeader] gives a header name only and its
    [fetchConfigFromReq] has no [dev] host, no [X-Eth-Method] header and no
    key header. *)

Module Legacy.

Definition getCacheHeader (method : JsValue) : option string :=
  if strict_eq_str method "eth_getBlockByNumber" then Some "X-Eth-Get-Block"
  else if strict_eq_str method "eth_blockNumber" then Some "X-Eth-Block"
  else None.

Section Earlier.

Variable postMethods : list string.
Variable JSON_stringify : JsValue -> JsValue.

Definition fetchConfigFromReq (g : Store) (network : JsValue) (req : JsObject)
    (source : JsValue) : FetchConfig :=
  let requestOrigin := js_or (getField req "origin") (JStr "internal") in
  let cleanReq :=
    [ ("id", getField req "id");
      ("jsonrpc", getField req "jsonrpc");
      ("method", getField req "method");
      ("params", getField req "params") ] in
  let method := getField cleanReq "method" in
  let params := getField cleanReq "params" in
  let isPostMethod := Array_includes postMethods method in
  let fetchUrl :=
    "https://" ++ ToString network ++ ".infura.io/v3/" ++ BRAVE_INFURA_PROJECT_ID g in
  if isPostMethod then
    let headers :=
      ([ ("Accept", JStr "application/json");
         ("Content-Type", JStr "application/json") ]
       ++ (if truthy source
           then [("Infura-Source", JStr (ToString source ++ "/" ++ ToString requestOrigin))]
           else []))%list in
    let headers :=
      match getCacheHeader method with
      | Some cacheHeader => setField headers cacheHeader (JStr "true")
      | None => headers
      end in
    mkFetchConfig fetchUrl
      [ ("method", JStr "POST");
        ("headers", JObj headers);
        ("body", JSON_stringify (JObj cleanReq)) ]
  else
    let fetchParams :=
      ([("method", JStr "GET")]
       ++ (if truthy source
           then [("headers",
                  JObj [("Infura-Source",
                         JStr (ToString source ++ "/" ++ ToString requestOrigin))])]
           else []))%list in
    let paramsString := encodeURIComponent (ToString (JSON_stringify params)) in
    mkFetchConfig (fetchUrl ++ "/" ++ ToString method ++ "?params=" ++ paramsString)
      fetchParams.

End Earlier.

End Legacy.

(** ** More sample calls *)

Module Cases.

(** One connection reset, then a refusal that is not retriable. *)
Definition resetThenDenied : nat -> string -> JsObject -> FetchOutcome :=
  fun n _ _ =>
    if (n <? 1)%nat then Rejected (Native "FetchError" "socket hang up, reason: ECONNRESET")
    else Rejected (Native "Error" "permission denied").

(** A block request that carries no [params]. *)
Definition blockRequestNoParams : JsObject :=
  [ ("id", JNum 1); ("jsonrpc", JStr "2.0"); ("method", JStr "eth_getBlockByNumber") ].

(** [Sample.blockRequest] with other extra properties. *)
Definition blockRequestOtherExtras : JsObject :=
  [ ("origin", JStr "example.org"); ("tabId", JNum 12); ("id", JNum 1);
    ("method", JStr "eth_getBlockByNumber"); ("jsonrpc", JStr "2.0");
    ("params", JArr [JStr "0x1b4"; JBool true]) ].

Definition noOptions : Options := mkOptions JUndefined JUndefined JUndefined JUndefined.

(** What [fetchConfigFromReq] builds for [Sample.balanceRequest] when no
    source is configured. *)
Definition plainBalanceConfig : FetchConfig :=
  mkFetchConfig
    "https://mainnet-infura.brave.com/PID/eth_getBalance?params=%5B%220xab%22%2C%22latest%22%5D"
    [ ("method", JStr "GET") ].

End Cases.

(** * Properties *)

(** ** Construction *)

Lemma js_or_truthy (a b : JsValue) : truthy b = true -> truthy (js_or a b) = true.
Proof.
  intros Hb. unfold js_or. destruct (truthy a) eqn:Ha; assumption.
Qed.

(** The guard of [createInfuraMiddleware] is never taken: [maxAttempts] has
    already been replaced by 5 when it is tested. *)
Lemma createInfuraMiddleware_never_throws (opts : Options) :
  createInfuraMiddleware opts
  = Normal (mkMiddleware (js_or (opt_network opts) (JStr "mainnet"))
                         (js_or (opt_maxAttempts opts) (JNum 5))
                         (opt_source opts) (opt_dev opts)).
Proof.
  unfold createInfuraMiddleware.
  rewrite (js_or_truthy (opt_maxAttempts opts) (JNum 5)); reflexivity.
Qed.

Lemma createInfuraMiddleware_falsy_maxAttempts (opts : Options) :
  truthy (opt_maxAttempts opts) = false ->
  exists mw, createInfuraMiddleware opts = Normal mw /\ maxAttempts mw = JNum 5.
Proof.
  intros H. rewrite createInfuraMiddleware_never_throws.
  eexists; split; [reflexivity|]. simpl. unfold js_or. now rewrite H.
Qed.

(** C1 (the code does not do this).  Constructing the middleware with
    [maxAttempts = 0] raises nothing: the call returns a middleware whose
    [maxAttempts] is the default 5. *)
Theorem C1_maxAttempts_zero_is_accepted :
  createInfuraMiddleware (mkOptions JUndefined (JNum 0) JUndefined JUndefined)
  = Normal (mkMiddleware (JStr "mainnet") (JNum 5) JUndefined JUndefined).
Proof. reflexivity. Qed.

(** ** Facts on strings and traces *)

Lemma prefix_app (a b : string) : String.prefix a (a ++ b) = true.
Proof.
  induction a as [|c a IH]; simpl.
  - destruct b; reflexivity.
  - destruct (ascii_dec c c) as [_|n]; [exact IH | now elim n].
Qed.

Lemma includes_prefix (a h : string) : String.prefix a h = true -> includes a h = true.
Proof. intros H. destruct h; cbn [includes]; rewrite H; reflexivity. Qed.

Lemma includes_self_app (a b : string) : includes a (a ++ b) = true.
Proof. apply includes_prefix, prefix_app. Qed.

Lemma includes_app_left (x a b : string) :
  includes x b = true -> includes x (a ++ b) = true.
Proof.
  intros H. induction a as [|c a IH]; simpl; [exact H|].
  simpl in IH. rewrite IH. apply orb_true_r.
Qed.

Lemma fetch_count_app (t u : list Event) :
  fetch_count (t ++ u) = (fetch_count t + fetch_count u)%nat.
Proof. unfold fetch_count. now rewrite filter_app, length_app. Qed.

Lemma timers_app (t u : list Event) : timers (t ++ u) = (timers t ++ timers u)%list.
Proof. unfold timers. apply flat_map_app. Qed.

Lemma after_fetch_count url params st :
  fetch_count (trace (after_fetch url params st)) = S (fetch_count (trace st)).
Proof.
  unfold after_fetch, emit. cbn [snd trace]. rewrite fetch_count_app.
  unfold fetch_count at 2. cbn. apply Nat.add_1_r.
Qed.

Lemma after_fetch_timers url params st :
  timers (trace (after_fetch url params st)) = timers (trace st).
Proof.
  unfold after_fetch, emit. cbn [snd trace]. rewrite timers_app. apply app_nil_r.
Qed.

Section Properties.

Variable postMethods : list string.
Variable JSON_stringify : JsValue -> JsValue.
Variable JSON_parse : string -> string + JsValue.
Variable StringToNumber : string -> option Z.
Variable rpcErrorString : RpcErr -> string.
Variable transport : nat -> string -> JsObject -> FetchOutcome.
Variable chrome_getProjectID : string.
Variable chrome_getBraveKey : option string.

Local Abbreviation fetchConfig := (fetchConfigFromReq postMethods JSON_stringify).
Local Abbreviation doFetch := (performFetch postMethods JSON_stringify JSON_parse transport).
Local Abbreviation canRetry e := (has_retriable_phrase (toString rpcErrorString e)).
Local Abbreviation loop :=
  (attemptLoop postMethods JSON_stringify JSON_parse StringToNumber rpcErrorString transport).
Local Abbreviation handle :=
  (handler postMethods JSON_stringify JSON_parse StringToNumber rpcErrorString transport
           chrome_getProjectID chrome_getBraveKey).
Local Abbreviation credentialed := (ensureCredentials chrome_getProjectID chrome_getBraveKey).

(** *** One call of [performFetch] *)

(** The request translator reads the two globals of the store and nothing
    else of it. *)
Lemma fetchConfig_globals (g g' : Store) network req source dev :
  BRAVE_KEY g' = BRAVE_KEY g ->
  BRAVE_INFURA_PROJECT_ID g' = BRAVE_INFURA_PROJECT_ID g ->
  fetchConfig g' network req source dev = fetchConfig g network req source dev.
Proof.
  intros Hk Hp. unfold fetchConfigFromReq. rewrite Hk, Hp. reflexivity.
Qed.

Lemma performFetch_untranslatable st network req source dev e :
  fetchConfig st network req source dev = Throw e ->
  doFetch network req source dev st = (Throw e, st).
Proof.
  intros H. unfold performFetch, bind. rewrite H. reflexivity.
Qed.

Lemma performFetch_rejected st network req source dev cfg e :
  fetchConfig st network req source dev = Normal cfg ->
  transport (fetch_count (trace st)) (fetchUrl cfg) (fetchParams cfg) = Rejected e ->
  doFetch network req source dev st
  = (Throw e, after_fetch (fetchUrl cfg) (fetchParams cfg) st).
Proof.
  intros Hc Ht. unfold performFetch, bind. rewrite Hc.
  unfold fetch. rewrite Ht. reflexivity.
Qed.

Lemma performFetch_resolved st network req source dev cfg r :
  fetchConfig st network req source dev = Normal cfg ->
  transport (fetch_count (trace st)) (fetchUrl cfg) (fetchParams cfg) = Resolved r ->
  doFetch network req source dev st
  = onResponse JSON_parse req r (after_fetch (fetchUrl cfg) (fetchParams cfg) st).
Proof.
  intros Hc Ht. unfold performFetch, bind at 1. rewrite Hc.
  unfold bind at 1. unfold fetch. rewrite Ht. reflexivity.
Qed.

(** A throw of the response handling leaves the whole store as it was. *)
Lemma onResponse_throw req r st e st' :
  onResponse JSON_parse req r st = (Throw e, st') -> st' = st.
Proof.
  unfold onResponse.
  destruct (negb (ok r)).
  - destruct (status r =? 405); [|destruct (status r =? 418);
      [|destruct ((status r =? 503) || (status r =? 504))]];
      unfold throw; intros H; now inversion H.
  - destruct (strict_eq_str (getField req "method") "eth_getBlockByNumber"
              && String.eqb (text r) "Not Found").
    + unfold set_res. intros H; discriminate H.
    + unfold bind, lift, set_res.
      destruct (JSON_parse (text r)) as [msg|data]; [intros H; now inversion H|].
      destruct data; cbn; intros H; try discriminate H; now inversion H.
Qed.

(** C10.  Whenever [performFetch] raises, whatever the cause (the request
    could not be translated, [fetch] rejected, a status outside 2xx, a body
    that does not parse, a parsed body that is null), the response object
    [res] is the one the attempt started with: [result] and [error] are
    assigned only by an attempt that completes. *)
Theorem C10_performFetch_raise_leaves_res network req source dev st e st' :
  doFetch network req source dev st = (Throw e, st') ->
  res st' = res st
  /\ getField (res st') "result" = getField (res st) "result"
  /\ getField (res st') "error" = getField (res st) "error".
Proof.
  intros H.
  assert (Hres : res st' = res st).
  { destruct (fetchConfig st network req source dev) as [cfg|e0] eqn:Hc.
    - destruct (transport (fetch_count (trace st)) (fetchUrl cfg) (fetchParams cfg))
        as [e1|r] eqn:Ht.
      + rewrite (performFetch_rejected _ _ _ _ _ _ _ Hc Ht) in H.
        inversion H. reflexivity.
      + rewrite (performFetch_resolved _ _ _ _ _ _ _ Hc Ht) in H.
        apply onResponse_throw in H. subst st'. reflexivity.
    - rewrite (performFetch_untranslatable _ _ _ _ _ _ Hc) in H.
      inversion H. reflexivity. }
  rewrite Hres. repeat split.
Qed.

(** The globals and the timers are out of reach of [performFetch]. *)
Lemma onResponse_frame req r st :
  let st' := snd (onResponse JSON_parse req r st) in
  BRAVE_KEY st' = BRAVE_KEY st
  /\ BRAVE_INFURA_PROJECT_ID st' = BRAVE_INFURA_PROJECT_ID st
  /\ trace st' = trace st.
Proof.
  unfold onResponse.
  destruct (negb (ok r)).
  - destruct (status r =? 405); [|destruct (status r =? 418);
      [|destruct ((status r =? 503) || (status r =? 504))]]; cbn; auto.
  - destruct (strict_eq_str (getField req "method") "eth_getBlockByNumber"
              && String.eqb (text r) "Not Found"); [cbn; auto|].
    unfold bind, lift, set_res.
    destruct (JSON_parse (text r)) as [msg|data]; [cbn; auto|].
    destruct data; cbn; auto.
Qed.

Lemma performFetch_frame network req source dev st :
  let st' := snd (doFetch network req source dev st) in
  BRAVE_KEY st' = BRAVE_KEY st
  /\ BRAVE_INFURA_PROJECT_ID st' = BRAVE_INFURA_PROJECT_ID st
  /\ timers (trace st') = timers (trace st)
  /\ (fetch_count (trace st) <= fetch_count (trace st') <= S (fetch_count (trace st)))%nat.
Proof.
  destruct (fetchConfig st network req source dev) as [cfg|e0] eqn:Hc.
  - destruct (transport (fetch_count (trace st)) (fetchUrl cfg) (fetchParams cfg))
      as [e1|r] eqn:Ht.
    + rewrite (performFetch_rejected _ _ _ _ _ _ _ Hc Ht). cbn [snd].
      rewrite after_fetch_timers, after_fetch_count.
      repeat split; try reflexivity; lia.
    + rewrite (performFetch_resolved _ _ _ _ _ _ _ Hc Ht).
      destruct (onResponse_frame req r (after_fetch (fetchUrl cfg) (fetchParams cfg) st))
        as (Hk & Hp & Htr).
      cbv zeta. rewrite Hk, Hp, Htr.
      rewrite after_fetch_timers, after_fetch_count.
      repeat split; try reflexivity; lia.
  - rewrite (performFetch_untranslatable _ _ _ _ _ _ Hc). cbn [snd].
    repeat split; try reflexivity; lia.
Qed.

Lemma getField_setField_same (o : JsObject) key v : getField (setField o key v) key = v.
Proof.
  induction o as [|[k w] o IH]; simpl.
  - now rewrite String.eqb_refl.
  - destruct (String.eqb k key) eqn:E; simpl; rewrite E; [reflexivity | exact IH].
Qed.

Lemma getField_setField_other (o : JsObject) key key' v :
  String.eqb key key' = false ->
  getField (setField o key v) key' = getField o key'.
Proof.
  intros Hne. induction o as [|[k w] o IH]; simpl.
  - now rewrite Hne.
  - destruct (String.eqb k key) eqn:E; simpl.
    + apply String.eqb_eq in E. subst k. now rewrite Hne.
    + now rewrite IH.
Qed.

(** C3.  For a request whose method is [eth_getBlockByNumber], answered
    with a 2xx status and the body [Not Found], [performFetch] completes
    normally, [res.result] is null and [res.error] is what it was.  The
    outcome is the same for every [JSON_parse], one that throws on this
    body included: the body is never handed to it. *)
Theorem C3_block_not_found_gives_null network req source dev st cfg r :
  getField req "method" = JStr "eth_getBlockByNumber" ->
  fetchConfig st network req source dev = Normal cfg ->
  transport (fetch_count (trace st)) (fetchUrl cfg) (fetchParams cfg) = Resolved r ->
  ok r = true ->
  text r = "Not Found" ->
  let st' := mkStore (BRAVE_KEY st) (BRAVE_INFURA_PROJECT_ID st)
                     (setField (res st) "result" JNull)
                     (trace st ++ [EvFetch (fetchUrl cfg) (fetchParams cfg)]) in
  doFetch network req source dev st = (Normal tt, st')
  /\ getField (res st') "result" = JNull
  /\ getField (res st') "error" = getField (res st) "error".
Proof.
  intros Hm Hc Ht Hok Hbody st'.
  rewrite (performFetch_resolved _ _ _ _ _ _ _ Hc Ht).
  unfold onResponse. rewrite Hok, Hm, Hbody. cbn.
  repeat split.
  - apply getField_setField_same.
  - apply getField_setField_other. reflexivity.
Qed.

(** *** The status switch *)

Section StatusSwitch.

(** What is taken for granted of eth-json-rpc-errors: the string form of
    its method-not-found error has no retriable phrase in it, and the string
    form of an internal error has one exactly when its message has. *)
Hypothesis methodNotFound_string :
  has_retriable_phrase (rpcErrorString MethodNotFound) = false.
Hypothesis internal_string :
  forall msg, has_retriable_phrase (rpcErrorString (Internal msg)) = has_retriable_phrase msg.

(** C8.  A response whose status is outside 2xx makes [performFetch]
    raise: for 405 the method-not-found error, which is not retried; for
    418 an internal error with the fixed rate-limit message; for 503 and
    504 an internal error whose fixed message contains [Gateway timeout];
    for any other status an internal error around the raw body, retried
    exactly when the body contains a retriable phrase. *)
Theorem C8_status_switch network req source dev st cfg r :
  fetchConfig st network req source dev = Normal cfg ->
  transport (fetch_count (trace st)) (fetchUrl cfg) (fetchParams cfg) = Resolved r ->
  ok r = false ->
  exists err,
    doFetch network req source dev st
    = (Throw err, after_fetch (fetchUrl cfg) (fetchParams cfg) st)
    /\ (status r = 405 -> err = Rpc MethodNotFound /\ canRetry err = false)
    /\ (status r = 418 -> err = createInternalError "Request is being rate limited.")
    /\ (status r = 503 \/ status r = 504 ->
        err = createInternalError "Gateway timeout, request took too long to process."
        /\ includes "Gateway timeout" "Gateway timeout, request took too long to process."
           = true
        /\ canRetry err = true)
    /\ (status r <> 405 -> status r <> 418 -> status r <> 503 -> status r <> 504 ->
        err = createInternalError (text r)
        /\ canRetry err = has_retriable_phrase (text r)).
Proof.
  intros Hc Ht Hok.
  rewrite (performFetch_resolved _ _ _ _ _ _ _ Hc Ht).
  unfold onResponse. rewrite Hok. cbn [negb].
  destruct (status r =? 405) eqn:E405; [apply Z.eqb_eq in E405|apply Z.eqb_neq in E405].
  { eexists; split; [reflexivity|].
    repeat split; intros; try lia; try assumption. }
  destruct (status r =? 418) eqn:E418; [apply Z.eqb_eq in E418|apply Z.eqb_neq in E418].
  { eexists; split; [reflexivity|].
    repeat split; intros; try lia. }
  destruct (status r =? 503) eqn:E503; [apply Z.eqb_eq in E503|apply Z.eqb_neq in E503].
  { eexists; split; [reflexivity|].
    repeat split; intros; try lia.
    cbn [toString createInternalError]. rewrite internal_string. reflexivity. }
  destruct (status r =? 504) eqn:E504; [apply Z.eqb_eq in E504|apply Z.eqb_neq in E504].
  { eexists; split; [reflexivity|].
    repeat split; intros; try lia.
    cbn [toString createInternalError]. rewrite internal_string. reflexivity. }
  eexists; split; [reflexivity|].
  repeat split; intros; try lia.
  cbn [toString createInternalError]. apply internal_string.
Qed.

(** The fixed message of status 418 has no retriable phrase in it. *)
Lemma rate_limited_not_retried :
  canRetry (createInternalError "Request is being rate limited.") = false.
Proof. cbn [toString createInternalError]. rewrite internal_string. reflexivity. Qed.

End StatusSwitch.

(** *** The retry loop *)

Lemma attemptLoop_unfold mw req fuel attempt st :
  loop mw req (S fuel) attempt st
  = if js_le StringToNumber attempt (maxAttempts mw) then
      match doFetch (network mw) req (source mw) (dev mw) st with
      | (Normal _, st') => Some (Normal tt, st')
      | (Throw err, st') =>
          if negb (canRetry err) then Some (Throw err, st')
          else if no_remainingAttempts StringToNumber (maxAttempts mw) attempt then
            Some (Throw (Native "Error" (exhaustedMessage rpcErrorString err)), st')
          else loop mw req fuel (attempt + 1) st'
      end
    else Some (Normal tt, st).
Proof. reflexivity. Qed.

Lemma attemptLoop_done mw req fuel attempt st :
  js_le StringToNumber attempt (maxAttempts mw) = false ->
  loop mw req fuel attempt st = Some (Normal tt, st).
Proof. intros H. destruct fuel; simpl; rewrite H; reflexivity. Qed.

Lemma ensureCredentials_res st : res (credentialed st) = res st.
Proof.
  unfold ensureCredentials, setProjectId, setBraveKey.
  destruct (String.eqb (BRAVE_INFURA_PROJECT_ID st) ""); cbn;
    destruct chrome_getBraveKey;
    match goal with |- context [String.eqb ?x ""] => destruct (String.eqb x "") end;
    reflexivity.
Qed.

Lemma ensureCredentials_trace st : trace (credentialed st) = trace st.
Proof.
  unfold ensureCredentials, setProjectId, setBraveKey.
  destruct (String.eqb (BRAVE_INFURA_PROJECT_ID st) ""); cbn;
    destruct chrome_getBraveKey;
    match goal with |- context [String.eqb ?x ""] => destruct (String.eqb x "") end;
    reflexivity.
Qed.



(** No run of the loop arms a timer. *)
Lemma attemptLoop_timers mw req :
  forall fuel attempt st c st',
    loop mw req fuel attempt st = Some (c, st') ->
    timers (trace st') = timers (trace st).
Proof.
  induction fuel as [|fuel IH]; intros attempt st c st' H.
  - simpl in H. destruct (js_le StringToNumber attempt (maxAttempts mw));
      [discriminate | now inversion H].
  - rewrite attemptLoop_unfold in H.
    destruct (js_le StringToNumber attempt (maxAttempts mw)); [|now inversion H].
    pose proof (performFetch_frame (network mw) req (source mw) (dev mw) st)
      as (_ & _ & Ht & _).
    destruct (doFetch (network mw) req (source mw) (dev mw) st) as [[u|err] st1];
      cbn [snd] in Ht.
    + inversion H. subst. exact Ht.
    + destruct (negb (canRetry err)); [inversion H; subst; exact Ht|].
      destruct (no_remainingAttempts StringToNumber (maxAttempts mw) attempt);
        [inversion H; subst; exact Ht|].
      rewrite <- Ht. eapply IH. exact H.
Qed.

Theorem handler_arms_no_timer mw req st c st' :
  handle mw req st = Some (c, st') ->
  timers (trace st') = timers (trace st).
Proof.
  unfold handler. intros H. apply attemptLoop_timers in H.
  now rewrite ensureCredentials_trace in H.
Qed.

Section OneRequest.

Variable mw : Middleware.
Variable req : JsObject.
Variable cfg : FetchConfig.

Local Abbreviation url := (fetchUrl cfg).
Local Abbreviation params := (fetchParams cfg).
Local Abbreviation attempt_on st := (doFetch (network mw) req (source mw) (dev mw) st).
Local Abbreviation translated st :=
  (fetchConfig st (network mw) req (source mw) (dev mw) = Normal cfg).

Lemma translated_after_fetch st : translated st -> translated (after_fetch url params st).
Proof.
  intros H. rewrite <- H. apply fetchConfig_globals; reflexivity.
Qed.

(** A failure that is not retriable ends the loop where it happens. *)
Lemma attemptLoop_fatal fuel attempt st err st' :
  js_le StringToNumber attempt (maxAttempts mw) = true ->
  attempt_on st = (Throw err, st') ->
  canRetry err = false ->
  loop mw req (S fuel) attempt st = Some (Throw err, st').
Proof.
  intros Hle Hf Hr. rewrite attemptLoop_unfold, Hle, Hf, Hr. reflexivity.
Qed.

(** A retriable failure with attempts left leads straight into the next
    iteration. *)
Lemma attemptLoop_retry fuel attempt st err st' m :
  ToNumber StringToNumber (maxAttempts mw) = Some m ->
  attempt < m ->
  attempt_on st = (Throw err, st') ->
  canRetry err = true ->
  loop mw req (S fuel) attempt st = loop mw req fuel (attempt + 1) st'.
Proof.
  intros Hm Hlt Hf Hr. rewrite attemptLoop_unfold, Hf, Hr.
  unfold js_le, no_remainingAttempts. rewrite Hm.
  replace (attempt <=? m) with true by (symmetry; apply Z.leb_le; lia).
  replace (m - attempt =? 0) with false by (symmetry; apply Z.eqb_neq; lia).
  reflexivity.
Qed.

Lemma attemptLoop_success fuel attempt st st' :
  js_le StringToNumber attempt (maxAttempts mw) = true ->
  attempt_on st = (Normal tt, st') ->
  loop mw req (S fuel) attempt st = Some (Normal tt, st').
Proof.
  intros Hle Hf. rewrite attemptLoop_unfold, Hle, Hf. reflexivity.
Qed.

Lemma attemptLoop_all_rejected m errs :
  ToNumber StringToNumber (maxAttempts mw) = Some m ->
  (forall n, transport n url params = Rejected (errs n)) ->
  (forall n, canRetry (errs n) = true) ->
  forall k attempt st,
    attempt + Z.of_nat k = m ->
    translated st ->
    loop mw req (S k) attempt st
    = Some (Throw (Native "Error"
                     (exhaustedMessage rpcErrorString
                        (errs (fetch_count (trace st) + k)%nat))),
            after_fetches (S k) url params st).
Proof.
  intros Hm Hrej Hretry.
  induction k as [|k IH]; intros attempt st Hk Hc.
  - rewrite attemptLoop_unfold.
    rewrite (performFetch_rejected _ _ _ _ _ _ _ Hc (Hrej _)), Hretry.
    unfold js_le, no_remainingAttempts. rewrite Hm.
    replace (attempt <=? m) with true by (symmetry; apply Z.leb_le; lia).
    replace (m - attempt =? 0) with true by (symmetry; apply Z.eqb_eq; lia).
    rewrite Nat.add_0_r. reflexivity.
  - assert (Hlt : attempt < m) by lia.
    assert (Hk' : attempt + 1 + Z.of_nat k = m) by lia.
    rewrite (attemptLoop_retry _ _ _ _ _ m Hm Hlt
               (performFetch_rejected _ _ _ _ _ _ _ Hc (Hrej _)) (Hretry _)).
    rewrite (IH (attempt + 1) _ Hk' (translated_after_fetch _ Hc)).
    rewrite after_fetch_count.
    replace (S (fetch_count (trace st)) + k)%nat
      with (fetch_count (trace st) + S k)%nat by lia.
    unfold after_fetches. rewrite <- (Nat.iter_succ_r (S k)). reflexivity.
Qed.

Lemma after_fetches_count n st :
  fetch_count (trace (after_fetches n url params st)) = (fetch_count (trace st) + n)%nat.
Proof.
  unfold after_fetches. induction n as [|n IH]; [now rewrite Nat.add_0_r|].
  rewrite Nat.iter_succ, after_fetch_count, IH. lia.
Qed.

Lemma after_fetches_res n st : res (after_fetches n url params st) = res st.
Proof.
  unfold after_fetches. induction n as [|n IH]; [reflexivity|].
  rewrite Nat.iter_succ. exact IH.
Qed.

(** C6.  With [maxAttempts = m >= 1] and a transport that rejects every
    call with an error whose string form has a retriable phrase in it, the
    call makes exactly [m] fetches and then raises a new [Error] whose
    message starts with [InfuraProvider] and contains the string form of
    the last failure; [res] is untouched. *)
Theorem C6_retries_exhausted st m errs :
  ToNumber StringToNumber (maxAttempts mw) = Some m ->
  1 <= m ->
  translated (credentialed st) ->
  (forall n, transport n url params = Rejected (errs n)) ->
  (forall n, canRetry (errs n) = true) ->
  let last := errs (fetch_count (trace st) + Z.to_nat m - 1)%nat in
  let msg := exhaustedMessage rpcErrorString last in
  let st' := after_fetches (Z.to_nat m) url params (credentialed st) in
  handle mw req st = Some (Throw (Native "Error" msg), st')
  /\ fetch_count (trace st') = (fetch_count (trace st) + Z.to_nat m)%nat
  /\ String.prefix "InfuraProvider" msg = true
  /\ includes (toString rpcErrorString last) msg = true
  /\ res st' = res st.
Proof.
  intros Hm H1 Hc Hrej Hretry last msg st'.
  assert (Hfuel : Z.to_nat m = S (Z.to_nat m - 1)) by lia.
  split; [|split; [|split; [|split]]].
  - unfold handler, loopFuel. rewrite Hm. subst st' msg last. rewrite Hfuel at 1 3.
    assert (Hk : 1 + Z.of_nat (Z.to_nat m - 1) = m) by lia.
    rewrite (attemptLoop_all_rejected m errs Hm Hrej Hretry _ 1 _ Hk Hc).
    rewrite ensureCredentials_trace.
    replace (fetch_count (trace st) + (Z.to_nat m - 1))%nat
      with (fetch_count (trace st) + Z.to_nat m - 1)%nat by lia.
    reflexivity.
  - subst st'. now rewrite after_fetches_count, ensureCredentials_trace.
  - reflexivity.
  - subst msg. unfold exhaustedMessage.
    apply includes_app_left, includes_app_left, includes_app_left, includes_app_left.
    apply includes_self_app.
  - subst st'. now rewrite after_fetches_res, ensureCredentials_res.
Qed.

Lemma loopFuel_positive m :
  ToNumber StringToNumber (maxAttempts mw) = Some m ->
  1 <= m ->
  loopFuel StringToNumber mw = S (Z.to_nat m - 1).
Proof. intros Hm H1. unfold loopFuel. rewrite Hm. lia. Qed.

Lemma js_le_number attempt m :
  ToNumber StringToNumber (maxAttempts mw) = Some m ->
  attempt <= m ->
  js_le StringToNumber attempt (maxAttempts mw) = true.
Proof. intros Hm H. unfold js_le. rewrite Hm. apply Z.leb_le, H. Qed.

(** C7.  Whatever [maxAttempts >= 1] is, when the transport rejects the
    first call with an error whose string form contains none of
    [Gateway timeout], [ETIMEDOUT], [ECONNRESET], [SyntaxError], the call
    raises that very error after exactly one fetch, and [res] is
    untouched. *)
Theorem C7_non_retriable_propagates_at_once st m e :
  ToNumber StringToNumber (maxAttempts mw) = Some m ->
  1 <= m ->
  translated (credentialed st) ->
  transport (fetch_count (trace st)) url params = Rejected e ->
  (forall phrase, In phrase RETRIABLE_ERRORS ->
     includes phrase (toString rpcErrorString e) = false) ->
  let st' := after_fetch url params (credentialed st) in
  handle mw req st = Some (Throw e, st')
  /\ fetch_count (trace st') = S (fetch_count (trace st))
  /\ res st' = res st.
Proof.
  intros Hm H1 Hc Hrej Hno st'.
  assert (Hr : canRetry e = false).
  { unfold has_retriable_phrase.
    destruct (existsb (fun phrase => includes phrase (toString rpcErrorString e))
                RETRIABLE_ERRORS) eqn:E; [|reflexivity].
    apply existsb_exists in E. destruct E as (phrase & Hin & Hinc).
    rewrite (Hno phrase Hin) in Hinc. discriminate. }
  split; [|split].
  - unfold handler. rewrite (loopFuel_positive m Hm H1).
    apply attemptLoop_fatal; [apply (js_le_number 1 m Hm H1) | | exact Hr].
    apply (performFetch_rejected _ _ _ _ _ _ _ Hc).
    now rewrite ensureCredentials_trace.
  - subst st'. now rewrite after_fetch_count, ensureCredentials_trace.
  - subst st'. cbn. apply ensureCredentials_res.
Qed.

(** A parsed body that is an object fills [res.result] and [res.error]. *)
Lemma onResponse_parsed r props st :
  ok r = true ->
  String.eqb (text r) "Not Found" = false ->
  JSON_parse (text r) = inr (JObj props) ->
  onResponse JSON_parse req r st
  = (Normal tt,
     mkStore (BRAVE_KEY st) (BRAVE_INFURA_PROJECT_ID st)
             (setField (setField (res st) "result" (getField props "result"))
                       "error" (getField props "error"))
             (trace st)).
Proof.
  intros Hok Hnf Hp. unfold onResponse. rewrite Hok, Hnf, andb_false_r. cbn [negb].
  unfold bind, lift. rewrite Hp. reflexivity.
Qed.

(** C9.  With [maxAttempts = m >= 3] (3 in particular), two retriable
    rejections followed by a 2xx answer whose body parses to an object:
    the call completes normally, [res.result] and [res.error] are those of
    the body, and exactly three fetches have been made. *)
Theorem C9_success_on_third_attempt st m e1 e2 r props :
  ToNumber StringToNumber (maxAttempts mw) = Some m ->
  3 <= m ->
  translated (credentialed st) ->
  transport (fetch_count (trace st)) url params = Rejected e1 ->
  canRetry e1 = true ->
  transport (S (fetch_count (trace st))) url params = Rejected e2 ->
  canRetry e2 = true ->
  transport (S (S (fetch_count (trace st)))) url params = Resolved r ->
  ok r = true ->
  String.eqb (text r) "Not Found" = false ->
  JSON_parse (text r) = inr (JObj props) ->
  let st3 := after_fetches 3 url params (credentialed st) in
  let st' :=
    mkStore (BRAVE_KEY st3) (BRAVE_INFURA_PROJECT_ID st3)
            (setField (setField (res st) "result" (getField props "result"))
                      "error" (getField props "error"))
            (trace st3) in
  handle mw req st = Some (Normal tt, st')
  /\ getField (res st') "result" = getField props "result"
  /\ getField (res st') "error" = getField props "error"
  /\ fetch_count (trace st') = (fetch_count (trace st) + 3)%nat.
Proof.
  intros Hm H3 Hc H1 Hr1 H2 Hr2 Hres Hok Hnf Hp st3 st'.
  set (c0 := credentialed st) in *.
  set (c1 := after_fetch url params c0).
  set (c2 := after_fetch url params c1).
  assert (Hn0 : fetch_count (trace c0) = fetch_count (trace st))
    by (subst c0; now rewrite ensureCredentials_trace).
  assert (Hn1 : fetch_count (trace c1) = S (fetch_count (trace st)))
    by (subst c1; now rewrite after_fetch_count, Hn0).
  assert (Hn2 : fetch_count (trace c2) = S (S (fetch_count (trace st))))
    by (subst c2; now rewrite after_fetch_count, Hn1).
  assert (Hc1 : translated c1) by (apply translated_after_fetch, Hc).
  assert (Hc2 : translated c2) by (apply translated_after_fetch, Hc1).
  rewrite <- Hn0 in H1. rewrite <- Hn1 in H2. rewrite <- Hn2 in Hres.
  assert (Hlt1 : 1 < m) by lia. assert (Hlt2 : 1 + 1 < m) by lia.
  split; [|split; [|split]].
  - unfold handler, loopFuel. rewrite Hm. fold c0.
    replace (Z.to_nat m) with (S (S (S (Z.to_nat m - 3)))) by lia.
    rewrite (attemptLoop_retry _ 1 c0 e1 c1 m Hm Hlt1
               (performFetch_rejected _ _ _ _ _ _ _ Hc H1) Hr1).
    rewrite (attemptLoop_retry _ (1 + 1) c1 e2 c2 m Hm Hlt2
               (performFetch_rejected _ _ _ _ _ _ _ Hc1 H2) Hr2).
    apply attemptLoop_success; [apply (js_le_number _ m Hm); lia|].
    rewrite (performFetch_resolved _ _ _ _ _ _ _ Hc2 Hres).
    rewrite (onResponse_parsed r props _ Hok Hnf Hp).
    assert (Hres3 : res (after_fetch url params c2) = res st)
      by (cbn; apply ensureCredentials_res).
    rewrite Hres3. reflexivity.
  - subst st'. cbn [res].
    rewrite getField_setField_other by reflexivity. apply getField_setField_same.
  - subst st'. cbn [res]. apply getField_setField_same.
  - subst st' st3. cbn [trace]. now rewrite after_fetches_count, Hn0.
Qed.


(** *** More on the retry loop *)

Lemma performFetch_throw_res st e st' :
  attempt_on st = (Throw e, st') -> res st' = res st.
Proof.
  intros H.
  destruct (fetchConfig st (network mw) req (source mw) (dev mw)) as [c|e0] eqn:Hc.
  - destruct (transport (fetch_count (trace st)) (fetchUrl c) (fetchParams c))
      as [e1|r] eqn:Ht.
    + rewrite (performFetch_rejected _ _ _ _ _ _ _ Hc Ht) in H.
      inversion H. reflexivity.
    + rewrite (performFetch_resolved _ _ _ _ _ _ _ Hc Ht) in H.
      apply onResponse_throw in H. subst st'. reflexivity.
  - rewrite (performFetch_untranslatable _ _ _ _ _ _ Hc) in H.
    inversion H. reflexivity.
Qed.

Lemma attemptLoop_throw_res :
  forall fuel attempt st e st',
    loop mw req fuel attempt st = Some (Throw e, st') -> res st' = res st.
Proof.
  induction fuel as [|fuel IH]; intros attempt st e st' H.
  - simpl in H. destruct (js_le StringToNumber attempt (maxAttempts mw)); discriminate.
  - rewrite attemptLoop_unfold in H.
    destruct (js_le StringToNumber attempt (maxAttempts mw)); [|discriminate].
    destruct (attempt_on st) as [[u|err] st1] eqn:Hf; [discriminate|].
    pose proof (performFetch_throw_res _ _ _ Hf) as Hres.
    destruct (negb (canRetry err)); [inversion H; subst; exact Hres|].
    destruct (no_remainingAttempts StringToNumber (maxAttempts mw) attempt);
      [inversion H; subst; exact Hres|].
    rewrite <- Hres. eapply IH. exact H.
Qed.

(** X1.  A call that ends in an error, whichever it is and after however
    many attempts, has not written to the response object. *)
Theorem handler_error_leaves_res st e st' :
  handler postMethods JSON_stringify JSON_parse StringToNumber rpcErrorString transport
          chrome_getProjectID chrome_getBraveKey mw req st
  = Some (Throw e, st') ->
  res st' = res st.
Proof.
  unfold handler. intros H. apply attemptLoop_throw_res in H.
  now rewrite ensureCredentials_res in H.
Qed.





(** X3.  When [1 <= maxAttempts] is false (a number below 1, or a value
    that converts to NaN), the loop body never runs: the call completes
    normally without a single fetch and with the response object as it
    was. *)
Theorem handler_without_attempts st :
  js_le StringToNumber 1 (maxAttempts mw) = false ->
  handle mw req st = Some (Normal tt, credentialed st)
  /\ trace (credentialed st) = trace st
  /\ res (credentialed st) = res st.
Proof.
  intros H. split; [|split].
  - unfold handler. now apply attemptLoop_done.
  - apply ensureCredentials_trace.
  - apply ensureCredentials_res.
Qed.

Lemma after_fetches_succ_r n st :
  after_fetches n url params (after_fetch url params st)
  = after_fetches (S n) url params st.
Proof. unfold after_fetches. symmetry. apply Nat.iter_succ_r. Qed.

Lemma translated_after_fetches n st :
  translated st -> translated (after_fetches n url params st).
Proof.
  intros H. induction n as [|n IH]; [exact H|].
  unfold after_fetches. rewrite Nat.iter_succ. now apply translated_after_fetch.
Qed.

(** [j] retriable rejections in a row, attempts being left, lead to the
    iteration [j] steps further on. *)
Lemma attemptLoop_retries m :
  ToNumber StringToNumber (maxAttempts mw) = Some m ->
  forall j errs fuel attempt st,
    translated st ->
    (forall i, (i < j)%nat ->
       transport (fetch_count (trace st) + i)%nat url params = Rejected (errs i)
       /\ canRetry (errs i) = true) ->
    attempt + Z.of_nat j <= m ->
    loop mw req (j + fuel) attempt st
    = loop mw req fuel (attempt + Z.of_nat j) (after_fetches j url params st).
Proof.
  intros Hm. induction j as [|j IH]; intros errs fuel attempt st Hc Hrej Hle.
  - cbn. now rewrite Z.add_0_r.
  - destruct (Hrej O ltac:(lia)) as [Ht Hr]. rewrite Nat.add_0_r in Ht.
    assert (Hlt : attempt < m) by lia.
    cbn [Nat.add].
    rewrite (attemptLoop_retry _ _ _ _ _ m Hm Hlt
               (performFetch_rejected _ _ _ _ _ _ _ Hc Ht) Hr).
    rewrite (IH (fun i => errs (S i)) fuel (attempt + 1) _ (translated_after_fetch _ Hc)).
    + rewrite after_fetches_succ_r. f_equal. lia.
    + intros i Hi. rewrite after_fetch_count.
      replace (S (fetch_count (trace st)) + i)%nat
        with (fetch_count (trace st) + S i)%nat by lia.
      apply Hrej. lia.
    + lia.
Qed.

(** X4.  After any number [j] of retriable rejections, a rejection that is
    not retriable is raised as it is, after exactly [j + 1] fetches, however
    many attempts were still allowed. *)
Theorem handler_stops_at_first_fatal st m j errs e :
  ToNumber StringToNumber (maxAttempts mw) = Some m ->
  Z.of_nat j + 1 <= m ->
  translated (credentialed st) ->
  (forall i, (i < j)%nat ->
     transport (fetch_count (trace st) + i)%nat url params = Rejected (errs i)
     /\ canRetry (errs i) = true) ->
  transport (fetch_count (trace st) + j)%nat url params = Rejected e ->
  canRetry e = false ->
  let st' := after_fetches (S j) url params (credentialed st) in
  handle mw req st = Some (Throw e, st')
  /\ fetch_count (trace st') = (fetch_count (trace st) + j + 1)%nat
  /\ res st' = res st.
Proof.
  intros Hm Hle Hc Hrej Ht Hr st'.
  split; [|split].
  - unfold handler, loopFuel. rewrite Hm.
    replace (Z.to_nat m) with (j + S (Z.to_nat m - j - 1))%nat by lia.
    rewrite (attemptLoop_retries m Hm j errs _ 1 _ Hc).
    + apply attemptLoop_fatal; [apply (js_le_number _ m Hm); lia | | exact Hr].
      subst st'. unfold after_fetches at 2. rewrite Nat.iter_succ.
      apply (performFetch_rejected _ _ _ _ _ _ _ (translated_after_fetches j _ Hc)).
      now rewrite after_fetches_count, ensureCredentials_trace.
    + intros i Hi. rewrite ensureCredentials_trace. now apply Hrej.
    + lia.
  - subst st'. rewrite after_fetches_count, ensureCredentials_trace. lia.
  - subst st'. now rewrite after_fetches_res, ensureCredentials_res.
Qed.

(** X5.  After any number [j] of retriable rejections, a 2xx answer whose
    body parses to an object completes the call: [res.result] and
    [res.error] are those of the body and exactly [j + 1] fetches were
    made. *)
Theorem handler_stops_at_first_success st m j errs r props :
  ToNumber StringToNumber (maxAttempts mw) = Some m ->
  Z.of_nat j + 1 <= m ->
  translated (credentialed st) ->
  (forall i, (i < j)%nat ->
     transport (fetch_count (trace st) + i)%nat url params = Rejected (errs i)
     /\ canRetry (errs i) = true) ->
  transport (fetch_count (trace st) + j)%nat url params = Resolved r ->
  ok r = true ->
  String.eqb (text r) "Not Found" = false ->
  JSON_parse (text r) = inr (JObj props) ->
  exists st',
    handle mw req st = Some (Normal tt, st')
    /\ res st' = setField (setField (res st) "result" (getField props "result"))
                          "error" (getField props "error")
    /\ getField (res st') "result" = getField props "result"
    /\ getField (res st') "error" = getField props "error"
    /\ fetch_count (trace st') = (fetch_count (trace st) + j + 1)%nat.
Proof.
  intros Hm Hle Hc Hrej Ht Hok Hnf Hp.
  set (sj := after_fetches j url params (credentialed st)).
  assert (Hcj : translated sj) by (apply translated_after_fetches, Hc).
  assert (Hnj : fetch_count (trace sj) = (fetch_count (trace st) + j)%nat)
    by (subst sj; now rewrite after_fetches_count, ensureCredentials_trace).
  assert (Hrj : res sj = res st)
    by (subst sj; now rewrite after_fetches_res, ensureCredentials_res).
  rewrite <- Hnj in Ht.
  eexists. split; [|split; [|split; [|split]]].
  - unfold handler, loopFuel. rewrite Hm.
    replace (Z.to_nat m) with (j + S (Z.to_nat m - j - 1))%nat by lia.
    rewrite (attemptLoop_retries m Hm j errs _ 1 _ Hc).
    + fold sj. apply attemptLoop_success; [apply (js_le_number _ m Hm); lia|].
      rewrite (performFetch_resolved _ _ _ _ _ _ _ Hcj Ht).
      rewrite (onResponse_parsed r props _ Hok Hnf Hp). reflexivity.
    + intros i Hi. rewrite ensureCredentials_trace. now apply Hrej.
    + lia.
  - cbn [res after_fetch emit snd]. now rewrite Hrj.
  - cbn [res]. rewrite getField_setField_other by reflexivity.
    apply getField_setField_same.
  - cbn [res]. apply getField_setField_same.
  - cbn [trace]. rewrite after_fetch_count, Hnj. lia.
Qed.

(** When every attempt fails with a retriable error, whatever the way it
    fails, the loop goes through all the attempts that are left. *)
Lemma attemptLoop_all_failing m errs :
  ToNumber StringToNumber (maxAttempts mw) = Some m ->
  (forall st, translated st ->
     attempt_on st
     = (Throw (errs (fetch_count (trace st))), after_fetch url params st)) ->
  (forall n, canRetry (errs n) = true) ->
  forall k attempt st,
    attempt + Z.of_nat k = m ->
    translated st ->
    loop mw req (S k) attempt st
    = Some (Throw (Native "Error"
                     (exhaustedMessage rpcErrorString
                        (errs (fetch_count (trace st) + k)%nat))),
            after_fetches (S k) url params st).
Proof.
  intros Hm Hfail Hretry.
  induction k as [|k IH]; intros attempt st Hk Hc.
  - rewrite attemptLoop_unfold, (Hfail st Hc), Hretry.
    unfold js_le, no_remainingAttempts. rewrite Hm.
    replace (attempt <=? m) with true by (symmetry; apply Z.leb_le; lia).
    replace (m - attempt =? 0) with true by (symmetry; apply Z.eqb_eq; lia).
    rewrite Nat.add_0_r. reflexivity.
  - assert (Hlt : attempt < m) by lia.
    assert (Hk' : attempt + 1 + Z.of_nat k = m) by lia.
    rewrite (attemptLoop_retry _ _ _ _ _ m Hm Hlt (Hfail st Hc) (Hretry _)).
    rewrite (IH (attempt + 1) _ Hk' (translated_after_fetch _ Hc)).
    rewrite after_fetch_count.
    replace (S (fetch_count (trace st)) + k)%nat
      with (fetch_count (trace st) + S k)%nat by lia.
    rewrite after_fetches_succ_r. reflexivity.
Qed.

Lemma handler_all_failing st m errs :
  ToNumber StringToNumber (maxAttempts mw) = Some m ->
  1 <= m ->
  translated (credentialed st) ->
  (forall s, translated s ->
     attempt_on s = (Throw (errs (fetch_count (trace s))), after_fetch url params s)) ->
  (forall n, canRetry (errs n) = true) ->
  let last := errs (fetch_count (trace st) + Z.to_nat m - 1)%nat in
  let st' := after_fetches (Z.to_nat m) url params (credentialed st) in
  handle mw req st
  = Some (Throw (Native "Error" (exhaustedMessage rpcErrorString last)), st')
  /\ fetch_count (trace st') = (fetch_count (trace st) + Z.to_nat m)%nat
  /\ res st' = res st.
Proof.
  intros Hm H1 Hc Hfail Hretry last st'.
  assert (Hfuel : Z.to_nat m = S (Z.to_nat m - 1)) by lia.
  split; [|split].
  - unfold handler, loopFuel. rewrite Hm. subst st' last. rewrite Hfuel at 1 3.
    assert (Hk : 1 + Z.of_nat (Z.to_nat m - 1) = m) by lia.
    rewrite (attemptLoop_all_failing m errs Hm Hfail Hretry _ 1 _ Hk Hc).
    rewrite ensureCredentials_trace.
    replace (fetch_count (trace st) + (Z.to_nat m - 1))%nat
      with (fetch_count (trace st) + Z.to_nat m - 1)%nat by lia.
    reflexivity.
  - subst st'. now rewrite after_fetches_count, ensureCredentials_trace.
  - subst st'. now rewrite after_fetches_res, ensureCredentials_res.
Qed.

(** A SyntaxError, whatever its message, counts as retriable. *)
Lemma SyntaxError_retriable message : canRetry (SyntaxError message) = true.
Proof.
  unfold has_retriable_phrase. apply existsb_exists.
  exists "SyntaxError". split; [simpl; auto|].
  apply includes_prefix. destruct message; reflexivity.
Qed.

Lemma onResponse_unparsable r message st :
  ok r = true ->
  strict_eq_str (getField req "method") "eth_getBlockByNumber"
  && String.eqb (text r) "Not Found" = false ->
  JSON_parse (text r) = inl message ->
  onResponse JSON_parse req r st = (Throw (SyntaxError message), st).
Proof.
  intros Hok Hsp Hp. unfold onResponse. rewrite Hok, Hsp. cbn [negb].
  unfold bind, lift. rewrite Hp. reflexivity.
Qed.

(** X6.  A 2xx body that JSON.parse rejects is a retriable failure.  When
    every answer is of that kind the call makes exactly [maxAttempts]
    fetches and raises the retries-exhausted error around the last
    SyntaxError; the response object is untouched. *)
Theorem handler_unparsable_bodies_exhaust st m resp messages :
  ToNumber StringToNumber (maxAttempts mw) = Some m ->
  1 <= m ->
  translated (credentialed st) ->
  (forall n, transport n url params = Resolved (resp n)) ->
  (forall n, ok (resp n) = true) ->
  (forall n, strict_eq_str (getField req "method") "eth_getBlockByNumber"
             && String.eqb (text (resp n)) "Not Found" = false) ->
  (forall n, JSON_parse (text (resp n)) = inl (messages n)) ->
  let last := SyntaxError (messages (fetch_count (trace st) + Z.to_nat m - 1)%nat) in
  let st' := after_fetches (Z.to_nat m) url params (credentialed st) in
  handle mw req st
  = Some (Throw (Native "Error" (exhaustedMessage rpcErrorString last)), st')
  /\ fetch_count (trace st') = (fetch_count (trace st) + Z.to_nat m)%nat
  /\ res st' = res st.
Proof.
  intros Hm H1 Hc Ht Hok Hsp Hp.
  apply (handler_all_failing st m (fun n => SyntaxError (messages n)) Hm H1 Hc).
  - intros s Hs. rewrite (performFetch_resolved _ _ _ _ _ _ _ Hs (Ht _)).
    apply onResponse_unparsable; auto.
  - intros n. apply SyntaxError_retriable.
Qed.

Lemma onResponse_gateway_timeout r st :
  status r = 503 \/ status r = 504 ->
  onResponse JSON_parse req r st
  = (Throw (createInternalError "Gateway timeout, request took too long to process."), st).
Proof.
  intros H. unfold onResponse, ok.
  destruct H as [H|H]; rewrite H; reflexivity.
Qed.

(** X7.  Status 503 and 504 are retried: when every answer has one of them
    the call makes exactly [maxAttempts] fetches and raises the
    retries-exhausted error.  (The string form of the library's internal
    error is taken to show the phrase of its message.) *)
Theorem handler_gateway_timeouts_exhaust st m resp :
  has_retriable_phrase
    (rpcErrorString (Internal "Gateway timeout, request took too long to process."))
  = true ->
  ToNumber StringToNumber (maxAttempts mw) = Some m ->
  1 <= m ->
  translated (credentialed st) ->
  (forall n, transport n url params = Resolved (resp n)) ->
  (forall n, status (resp n) = 503 \/ status (resp n) = 504) ->
  let last := createInternalError "Gateway timeout, request took too long to process." in
  let st' := after_fetches (Z.to_nat m) url params (credentialed st) in
  handle mw req st
  = Some (Throw (Native "Error" (exhaustedMessage rpcErrorString last)), st')
  /\ fetch_count (trace st') = (fetch_count (trace st) + Z.to_nat m)%nat
  /\ res st' = res st.
Proof.
  intros Hstr Hm H1 Hc Ht Hst.
  apply (handler_all_failing st m
           (fun _ => createInternalError
                       "Gateway timeout, request took too long to process.")
           Hm H1 Hc).
  - intros s Hs. rewrite (performFetch_resolved _ _ _ _ _ _ _ Hs (Ht _)).
    apply onResponse_gateway_timeout, Hst.
  - intros _. exact Hstr.
Qed.

Lemma handler_first_failure_fatal st m e st1 :
  ToNumber StringToNumber (maxAttempts mw) = Some m ->
  1 <= m ->
  attempt_on (credentialed st) = (Throw e, st1) ->
  canRetry e = false ->
  handle mw req st = Some (Throw e, st1).
Proof.
  intros Hm H1 Hf Hr. unfold handler. rewrite (loopFuel_positive m Hm H1).
  apply attemptLoop_fatal; [apply (js_le_number 1 m Hm H1) | exact Hf | exact Hr].
Qed.

(** X8.  Status 418 is not retried: the rate-limit error is raised after
    one fetch, whatever [maxAttempts] is.  (The string form of the
    library's internal error is taken to show no retriable phrase that its
    message does not have.) *)
Theorem handler_rate_limited_fails_at_once st m r :
  has_retriable_phrase (rpcErrorString (Internal "Request is being rate limited."))
  = false ->
  ToNumber StringToNumber (maxAttempts mw) = Some m ->
  1 <= m ->
  translated (credentialed st) ->
  transport (fetch_count (trace st)) url params = Resolved r ->
  status r = 418 ->
  let st' := after_fetch url params (credentialed st) in
  handle mw req st
  = Some (Throw (createInternalError "Request is being rate limited."), st')
  /\ fetch_count (trace st') = S (fetch_count (trace st))
  /\ res st' = res st.
Proof.
  intros Hstr Hm H1 Hc Ht Hst st'. split; [|split].
  - apply (handler_first_failure_fatal st m _ _ Hm H1); [|exact Hstr].
    rewrite <- ensureCredentials_trace in Ht.
    rewrite (performFetch_resolved _ _ _ _ _ _ _ Hc Ht).
    unfold onResponse, ok. rewrite Hst. reflexivity.
  - subst st'. now rewrite after_fetch_count, ensureCredentials_trace.
  - subst st'. cbn. apply ensureCredentials_res.
Qed.

(** X9.  A 2xx answer whose body parses to null is fatal: reading
    [data.result] raises a TypeError, which no retriable phrase matches, so
    the call fails after one fetch with the response object untouched. *)
Theorem handler_null_body_fails_at_once st m r :
  ToNumber StringToNumber (maxAttempts mw) = Some m ->
  1 <= m ->
  translated (credentialed st) ->
  transport (fetch_count (trace st)) url params = Resolved r ->
  ok r = true ->
  String.eqb (text r) "Not Found" = false ->
  JSON_parse (text r) = inr JNull ->
  let st' := after_fetch url params (credentialed st) in
  handle mw req st
  = Some (Throw (TypeError "Cannot read property 'result' of null"), st')
  /\ fetch_count (trace st') = S (fetch_count (trace st))
  /\ res st' = res st.
Proof.
  intros Hm H1 Hc Ht Hok Hnf Hp st'. split; [|split].
  - apply (handler_first_failure_fatal st m _ _ Hm H1); [|reflexivity].
    rewrite <- ensureCredentials_trace in Ht.
    rewrite (performFetch_resolved _ _ _ _ _ _ _ Hc Ht).
    unfold onResponse. rewrite Hok, Hnf, andb_false_r. cbn [negb].
    unfold bind, lift. rewrite Hp. reflexivity.
  - subst st'. now rewrite after_fetch_count, ensureCredentials_trace.
  - subst st'. cbn. apply ensureCredentials_res.
Qed.

End OneRequest.


(** *** Whole calls *)

Lemma prefix_app_right (x a b : string) :
  String.prefix x a = true -> String.prefix x (a ++ b) = true.
Proof.
  revert a. induction x as [|c x IH]; intros a H.
  - destruct (a ++ b); reflexivity.
  - destruct a as [|d a]; [discriminate H|].
    simpl in H |- *. destruct (ascii_dec c d); [now apply IH | discriminate H].
Qed.

Lemma includes_app_right (x a b : string) :
  includes x a = true -> includes x (a ++ b) = true.
Proof.
  induction a as [|d a IH]; intros H.
  - cbn [includes] in H. rewrite orb_false_r in H.
    apply includes_prefix. now apply (prefix_app_right x "" b).
  - cbn [includes] in H. apply orb_true_iff in H. destruct H as [H|H].
    + apply includes_prefix. now apply prefix_app_right.
    + change (String d a ++ b) with (String d (a ++ b)). cbn [includes].
      rewrite (IH H). apply orb_true_r.
Qed.

Lemma includes_Error_toString (p name message : string) :
  includes p message = true -> includes p (Error_toString name message) = true.
Proof.
  intros H. unfold Error_toString.
  destruct (String.eqb name ""); [exact H|].
  destruct (String.eqb message "") eqn:E.
  - apply String.eqb_eq in E. subst message.
    destruct p; [destruct name; reflexivity | discriminate H].
  - now apply includes_app_left, includes_app_left.
Qed.

(** X10.  The retries-exhausted error is itself classified as retriable:
    its message embeds the string form of the failure it wraps, and with it
    the phrase that made that failure retriable. *)
Theorem exhausted_error_is_retriable err :
  canRetry err = true ->
  canRetry (Native "Error" (exhaustedMessage rpcErrorString err)) = true.
Proof.
  unfold has_retriable_phrase. intros H.
  apply existsb_exists in H. destruct H as (phrase & Hin & Hinc).
  apply existsb_exists. exists phrase. split; [exact Hin|].
  cbn [toString]. apply includes_Error_toString. unfold exhaustedMessage.
  do 4 apply includes_app_left.
  apply includes_app_right, Hinc.
Qed.

Lemma attemptLoop_globals mw req :
  forall fuel attempt st c st',
    loop mw req fuel attempt st = Some (c, st') ->
    BRAVE_KEY st' = BRAVE_KEY st
    /\ BRAVE_INFURA_PROJECT_ID st' = BRAVE_INFURA_PROJECT_ID st.
Proof.
  induction fuel as [|fuel IH]; intros attempt st c st' H.
  - simpl in H. destruct (js_le StringToNumber attempt (maxAttempts mw));
      [discriminate | inversion H; auto].
  - rewrite attemptLoop_unfold in H.
    destruct (js_le StringToNumber attempt (maxAttempts mw)); [|inversion H; auto].
    pose proof (performFetch_frame (network mw) req (source mw) (dev mw) st)
      as (Hk & Hp & _).
    destruct (doFetch (network mw) req (source mw) (dev mw) st) as [[u|err] st1];
      cbn [snd] in Hk, Hp.
    + inversion H. subst. auto.
    + destruct (negb (canRetry err)); [inversion H; subst; auto|].
      destruct (no_remainingAttempts StringToNumber (maxAttempts mw) attempt);
        [inversion H; subst; auto|].
      destruct (IH _ _ _ _ H) as [Hk' Hp']. split; congruence.
Qed.

(** X11.  What a call does to the two cached credentials: a project id or
    a key that is already there is kept; an empty one is replaced by what
    the wallet gives (the key stays empty when the wallet has no
    getBraveKey).  Nothing else of the call touches them. *)
Theorem handler_credentials mw req st c st' :
  handler postMethods JSON_stringify JSON_parse StringToNumber rpcErrorString transport
          chrome_getProjectID chrome_getBraveKey mw req st
  = Some (c, st') ->
  BRAVE_INFURA_PROJECT_ID st'
  = (if String.eqb (BRAVE_INFURA_PROJECT_ID st) "" then chrome_getProjectID
     else BRAVE_INFURA_PROJECT_ID st)
  /\ BRAVE_KEY st'
     = (if String.eqb (BRAVE_KEY st) ""
        then match chrome_getBraveKey with Some key => key | None => "" end
        else BRAVE_KEY st).
Proof.
  unfold handler. intros H. apply attemptLoop_globals in H. destruct H as [Hk Hp].
  rewrite Hk, Hp. unfold ensureCredentials, setProjectId, setBraveKey.
  destruct (String.eqb (BRAVE_INFURA_PROJECT_ID st) "") eqn:E1; cbn;
    destruct (String.eqb (BRAVE_KEY st) "") eqn:E2; cbn;
    destruct chrome_getBraveKey; cbn; auto.
  all: apply String.eqb_eq in E2; auto.
Qed.

(** The only errors the request translator raises are the two TypeErrors
    of [getCacheHeader]. *)
Lemma fetchConfig_throw g network req source dev e :
  fetchConfig g network req source dev = Throw e ->
  e = TypeError "Cannot read property 'toString' of undefined"
  \/ e = TypeError "Cannot read property 'toString' of null".
Proof.
  unfold fetchConfigFromReq.
  destruct (Array_includes postMethods _); [|discriminate].
  unfold getCacheHeader.
  destruct (strict_eq_str _ "eth_getBlockByNumber").
  - cbn [getField String.eqb Ascii.eqb Bool.eqb].
    destruct (getField req "params"); intros H; inversion H; auto.
  - destruct (strict_eq_str _ "eth_blockNumber"); discriminate.
Qed.

(** X12.  A request the translator cannot build a configuration for makes
    the call fail with the translator's TypeError before any fetch is made;
    it is not retried. *)
Theorem handler_untranslatable_request mw req st m e :
  ToNumber StringToNumber (maxAttempts mw) = Some m ->
  1 <= m ->
  fetchConfig (credentialed st) (network mw) req (source mw) (dev mw) = Throw e ->
  handle mw req st = Some (Throw e, credentialed st)
  /\ trace (credentialed st) = trace st
  /\ res (credentialed st) = res st.
Proof.
  intros Hm H1 Hc. split; [|split].
  - apply (handler_first_failure_fatal mw req st m e _ Hm H1).
    + now apply performFetch_untranslatable.
    + destruct (fetchConfig_throw _ _ _ _ _ _ Hc) as [->| ->]; reflexivity.
  - apply ensureCredentials_trace.
  - apply ensureCredentials_res.
Qed.

(** X13.  A 2xx body that is JSON but neither an object nor null (a number,
    a string, a boolean, an array) is accepted: the attempt completes
    normally with [res.result] and [res.error] both undefined. *)
Theorem performFetch_scalar_body network req source dev st cfg r data :
  fetchConfig st network req source dev = Normal cfg ->
  transport (fetch_count (trace st)) (fetchUrl cfg) (fetchParams cfg) = Resolved r ->
  ok r = true ->
  String.eqb (text r) "Not Found" = false ->
  JSON_parse (text r) = inr data ->
  match data with
  | JBool _ | JNum _ | JStr _ | JArr _ => True
  | _ => False
  end ->
  exists st',
    doFetch network req source dev st = (Normal tt, st')
    /\ getField (res st') "result" = JUndefined
    /\ getField (res st') "error" = JUndefined.
Proof.
  intros Hc Ht Hok Hnf Hp Hd.
  rewrite (performFetch_resolved _ _ _ _ _ _ _ Hc Ht).
  unfold onResponse. rewrite Hok, Hnf, andb_false_r. cbn [negb].
  unfold bind, lift. rewrite Hp.
  destruct data; try contradiction Hd; cbn;
    (eexists; split; [reflexivity|]; cbn [res]; split;
     [rewrite getField_setField_other by reflexivity; apply getField_setField_same
     | apply getField_setField_same]).
Qed.

(** X14.  The default: a middleware built with no [maxAttempts] (or a falsy
    one) makes five attempts.  Against a transport that rejects every call
    with a retriable error the call ends after exactly five fetches. *)
Theorem default_is_five_attempts opts mw req cfg st errs :
  truthy (opt_maxAttempts opts) = false ->
  createInfuraMiddleware opts = Normal mw ->
  fetchConfig (credentialed st) (network mw) req (source mw) (dev mw) = Normal cfg ->
  (forall n, transport n (fetchUrl cfg) (fetchParams cfg) = Rejected (errs n)) ->
  (forall n, canRetry (errs n) = true) ->
  let last := errs (fetch_count (trace st) + 4)%nat in
  let st' := after_fetches 5 (fetchUrl cfg) (fetchParams cfg) (credentialed st) in
  handle mw req st
  = Some (Throw (Native "Error" (exhaustedMessage rpcErrorString last)), st')
  /\ fetch_count (trace st') = (fetch_count (trace st) + 5)%nat.
Proof.
  intros Hf Hmw Hc Hrej Hretry last st'.
  destruct (createInfuraMiddleware_falsy_maxAttempts opts Hf) as (mw' & Hmw' & H5).
  rewrite Hmw in Hmw'. inversion Hmw'. subst mw'.
  assert (Hm : ToNumber StringToNumber (maxAttempts mw) = Some 5) by now rewrite H5.
  assert (H1 : 1 <= 5) by lia.
  destruct (handler_all_failing mw req cfg st 5 errs Hm H1 Hc) as (H & Hn & _).
  - intros s Hs. apply (performFetch_rejected _ _ _ _ _ _ _ Hs (Hrej _)).
  - exact Hretry.
  - subst last st'.
    replace (fetch_count (trace st) + 4)%nat
      with (fetch_count (trace st) + Z.to_nat 5 - 1)%nat by lia.
    split; [exact H | exact Hn].
Qed.

End Properties.

(** ** The query string *)

Ltac each_byte c :=
  destruct c as [b0 b1 b2 b3 b4 b5 b6 b7];
  destruct b0, b1, b2, b3, b4, b5, b6, b7.

Lemma encodeURIComponent_cons c rest :
  encodeURIComponent (String c rest) = encodeByte c ++ encodeURIComponent rest.
Proof. unfold encodeByte. simpl. destruct (uriUnreserved c); reflexivity. Qed.

Lemma decode_encodeByte c t :
  decodeURIComponent (encodeByte c ++ t) = option_map (String c) (decodeURIComponent t).
Proof. each_byte c; reflexivity. Qed.

Lemma decode_encode (s : string) :
  decodeURIComponent (encodeURIComponent s) = Some s.
Proof.
  induction s as [|c s IH]; [reflexivity|].
  rewrite encodeURIComponent_cons, decode_encodeByte, IH. reflexivity.
Qed.

Lemma lacks_app c a b : lacks c (a ++ b) = lacks c a && lacks c b.
Proof.
  induction a as [|d a IH]; simpl; [reflexivity|].
  rewrite IH. apply andb_assoc.
Qed.

Lemma lacks_encodeByte d c :
  In d ["#"; "?"; "&"; "="]%char -> lacks d (encodeByte c) = true.
Proof.
  intros [<-|[<-|[<-|[<-|[]]]]]; each_byte c; reflexivity.
Qed.

Lemma lacks_encode d s :
  In d ["#"; "?"; "&"; "="]%char -> lacks d (encodeURIComponent s) = true.
Proof.
  intros Hd. induction s as [|c s IH]; [reflexivity|].
  rewrite encodeURIComponent_cons, lacks_app, IH, (lacks_encodeByte d c Hd). reflexivity.
Qed.

Lemma split_first_lacks c s : lacks c s = true -> split_first c s = None.
Proof.
  induction s as [|d s IH]; simpl; [reflexivity|].
  intros H. apply andb_true_iff in H. destruct H as [Hd Hs].
  apply negb_true_iff in Hd. rewrite Hd, (IH Hs). reflexivity.
Qed.

Lemma split_first_skip c a s :
  lacks c a = true ->
  split_first c (a ++ s)
  = match split_first c s with
    | Some (x, y) => Some (a ++ x, y)
    | None => None
    end.
Proof.
  induction a as [|d a IH]; simpl.
  - intros _. destruct (split_first c s) as [[x y]|]; reflexivity.
  - intros H. apply andb_true_iff in H. destruct H as [Hd Ha].
    apply negb_true_iff in Hd. rewrite Hd, (IH Ha).
    destruct (split_first c s) as [[x y]|]; reflexivity.
Qed.

Lemma split_all_lacks c s : lacks c s = true -> split_all c s = [s].
Proof.
  induction s as [|d s IH]; simpl; [reflexivity|].
  intros H. apply andb_true_iff in H. destruct H as [Hd Hs].
  apply negb_true_iff in Hd. rewrite Hd, (IH Hs). reflexivity.
Qed.

(** A URL made of a path without [?] and [#] and a query [params=...]
    whose value is percent-encoded gives that value back. *)
Lemma url_param_of_encoded path s :
  no_url_delimiter path = true ->
  url_param (path ++ "?params=" ++ encodeURIComponent s) "params"
  = Some (encodeURIComponent s).
Proof.
  intros Hp. apply andb_true_iff in Hp. destruct Hp as [Hq Hh].
  assert (Henc : forall d, In d ["#"; "?"; "&"; "="]%char ->
                           lacks d (encodeURIComponent s) = true)
    by (intros d Hd; now apply lacks_encode).
  unfold url_param, url_query.
  rewrite (split_first_lacks "#").
  2:{ rewrite lacks_app, Hh. simpl. apply Henc. simpl; auto. }
  rewrite (split_first_skip "?" path _ Hq). cbn [split_first append Ascii.eqb Bool.eqb].
  rewrite (split_all_lacks "&").
  2:{ simpl. apply Henc. simpl; auto. }
  cbn. reflexivity.
Qed.

Lemma append_assoc (a b c : string) : (a ++ b) ++ c = a ++ b ++ c.
Proof. induction a as [|d a IH]; simpl; [reflexivity | now rewrite IH]. Qed.

Lemma no_url_delimiter_app a b :
  no_url_delimiter (a ++ b) = no_url_delimiter a && no_url_delimiter b.
Proof.
  unfold no_url_delimiter. rewrite !lacks_app.
  destruct (lacks "?" a), (lacks "?" b), (lacks "#" a), (lacks "#" b); reflexivity.
Qed.

Section Translator.

Variable postMethods : list string.
Variable JSON_stringify : JsValue -> JsValue.
Variable JSON_parse : string -> string + JsValue.

Local Abbreviation fetchConfig := (fetchConfigFromReq postMethods JSON_stringify).

(** [cleanReq] has the four envelope keys whatever [req] has. *)
Lemma normalizeReq_keys req :
  map fst (normalizeReq req) = ["id"; "jsonrpc"; "method"; "params"].
Proof. reflexivity. Qed.

Lemma post_body g network req source dev cfg :
  Array_includes postMethods (getField req "method") = true ->
  fetchConfig g network req source dev = Normal cfg ->
  fetchUrl cfg
  = "https://" ++ ToString network ++ "-"
    ++ (if truthy dev then "staging-infura.bravesoftware" else "infura.brave")
    ++ ".com/" ++ BRAVE_INFURA_PROJECT_ID g
  /\ getField (fetchParams cfg) "method" = JStr "POST"
  /\ getField (fetchParams cfg) "body" = JSON_stringify (JObj (normalizeReq req)).
Proof.
  intros Hpost. unfold fetchConfigFromReq.
  cbn [getField String.eqb Ascii.eqb Bool.eqb]. rewrite Hpost.
  destruct (getCacheHeader _ _) as [h|e]; [|discriminate].
  intros H. inversion H. subst cfg. cbn. repeat split.
Qed.

(** C4.  For a request whose method is on the POST allow-list and for
    which a configuration is built, the outbound body is the JSON text of
    the object with the four properties [id], [jsonrpc], [method],
    [params] of the request: it parses back to exactly these four fields,
    and it is the same for every request that agrees on these four,
    whatever else either carries.  (The four values are taken to survive
    JSON.stringify and JSON.parse, that is, to be JSON values.) *)
Theorem C4_post_body_has_the_four_fields g network req source dev cfg :
  Array_includes postMethods (getField req "method") = true ->
  fetchConfig g network req source dev = Normal cfg ->
  json_roundtrips JSON_stringify JSON_parse (JObj (normalizeReq req)) ->
  exists body fields,
    getField (fetchParams cfg) "body" = JStr body
    /\ JSON_parse body = inr (JObj fields)
    /\ map fst fields = ["id"; "jsonrpc"; "method"; "params"]
    /\ fields = normalizeReq req
    /\ (forall req' cfg',
          normalizeReq req' = normalizeReq req ->
          fetchConfig g network req' source dev = Normal cfg' ->
          getField (fetchParams cfg') "body" = JStr body).
Proof.
  intros Hpost Hc (body & Hs & Hp).
  destruct (post_body _ _ _ _ _ _ Hpost Hc) as (_ & _ & Hb).
  exists body, (normalizeReq req). repeat split.
  - now rewrite Hb.
  - exact Hp.
  - intros req' cfg' Hn Hc'.
    assert (Hm : getField req' "method" = getField req "method").
    { unfold normalizeReq in Hn. now inversion Hn. }
    rewrite <- Hm in Hpost.
    destruct (post_body _ _ _ _ _ _ Hpost Hc') as (_ & _ & Hb').
    now rewrite Hb', Hn.
Qed.

Lemma get_config g network req source dev :
  Array_includes postMethods (getField req "method") = false ->
  fetchConfig g network req source dev
  = Normal (mkFetchConfig
              (("https://" ++ ToString network ++ "-"
                ++ (if truthy dev then "staging-infura.bravesoftware" else "infura.brave")
                ++ ".com/" ++ BRAVE_INFURA_PROJECT_ID g)
               ++ "/" ++ ToString (getField req "method") ++ "?params="
               ++ encodeURIComponent (ToString (JSON_stringify (getField req "params"))))
              ([("method", JStr "GET")]
               ++ (if truthy source
                   then [("headers",
                          JObj [("Infura-Source",
                                 JStr (ToString source ++ "/"
                                       ++ ToString (js_or (getField req "origin")
                                                          (JStr "internal"))))])]
                   else []))%list).
Proof.
  intros Hget. unfold fetchConfigFromReq.
  cbn [getField String.eqb Ascii.eqb Bool.eqb]. rewrite Hget. reflexivity.
Qed.

(** C5, as amended.  For a request whose method is not on the POST
    allow-list, when neither the method nor the network name nor the
    project id contains [?] or [#], and [params] is a JSON value, the
    [params] value of the query of the built URL, percent-decoded and
    parsed, is [params]. *)
Theorem C5_query_params_round_trip g network req source dev :
  Array_includes postMethods (getField req "method") = false ->
  json_roundtrips JSON_stringify JSON_parse (getField req "params") ->
  no_url_delimiter (ToString network) = true ->
  no_url_delimiter (BRAVE_INFURA_PROJECT_ID g) = true ->
  no_url_delimiter (ToString (getField req "method")) = true ->
  exists cfg,
    fetchConfig g network req source dev = Normal cfg
    /\ params_read_back JSON_parse (fetchUrl cfg) = Some (getField req "params").
Proof.
  intros Hget (s & Hs & Hp) Hn Hg Hm.
  eexists. split; [apply (get_config _ _ _ _ _ Hget)|].
  cbn [fetchUrl]. rewrite Hs. cbn [ToString].
  rewrite <- !(append_assoc _ _ ("?params=" ++ encodeURIComponent s)).
  unfold params_read_back. rewrite url_param_of_encoded.
  - now rewrite decode_encode, Hp.
  - rewrite !no_url_delimiter_app, Hn, Hg, Hm. destruct (truthy dev); reflexivity.
Qed.


(** *** More on the request translator *)

(** X15.  The translator reads five properties of the request and nothing
    else: two requests that agree on [id], [jsonrpc], [method], [params]
    and [origin] get the same URL, the same headers and the same body,
    whatever other properties either carries. *)
Theorem fetchConfigFromReq_reads_five_fields g network req req' source dev :
  (forall key, In key ["id"; "jsonrpc"; "method"; "params"; "origin"] ->
     getField req' key = getField req key) ->
  fetchConfig g network req' source dev = fetchConfig g network req source dev.
Proof.
  intros H. unfold fetchConfigFromReq.
  rewrite (H "id"), (H "jsonrpc"), (H "method"), (H "params"), (H "origin");
    simpl; auto 6.
Qed.


(** X17.  The headers of a POST: [Accept] and [Content-Type] are
    application/json, [X-Eth-Method] is the method, [Infura-Source] is
    [source/origin] (origin [internal] when the request has none) exactly
    when a source is configured, and [x-brave-key] is the key exactly when
    one is cached.  The URL is the base URL, with no path or query added,
    and the HTTP method is POST. *)
Theorem post_headers g network req source dev cfg :
  Array_includes postMethods (getField req "method") = true ->
  fetchConfig g network req source dev = Normal cfg ->
  exists headers,
    getField (fetchParams cfg) "headers" = JObj headers
    /\ getField (fetchParams cfg) "method" = JStr "POST"
    /\ fetchUrl cfg
       = "https://" ++ ToString network ++ "-"
         ++ (if truthy dev then "staging-infura.bravesoftware" else "infura.brave")
         ++ ".com/" ++ BRAVE_INFURA_PROJECT_ID g
    /\ getField headers "Accept" = JStr "application/json"
    /\ getField headers "Content-Type" = JStr "application/json"
    /\ getField headers "X-Eth-Method" = getField req "method"
    /\ getField headers "Infura-Source"
       = (if truthy source
          then JStr (ToString source ++ "/"
                     ++ ToString (js_or (getField req "origin") (JStr "internal")))
          else JUndefined)
    /\ getField headers "x-brave-key"
       = (if String.eqb (BRAVE_KEY g) "" then JUndefined else JStr (BRAVE_KEY g)).
Proof.
  intros Hpost. unfold fetchConfigFromReq, getCacheHeader.
  cbn [getField String.eqb Ascii.eqb Bool.eqb]. rewrite Hpost.
  destruct (strict_eq_str (getField req "method") "eth_getBlockByNumber");
    [destruct (getField req "params"); try discriminate
    |destruct (strict_eq_str (getField req "method") "eth_blockNumber")];
    intros H; inversion H; subst cfg; clear H;
    destruct (truthy source); destruct (BRAVE_KEY g);
    eexists; cbn; repeat split.
Qed.



(** X20.  [normalizeReq] keeps the four envelope values, drops every other
    property, and normalizing twice changes nothing more. *)
Theorem normalizeReq_strips_extra_keys req :
  normalizeReq (normalizeReq req) = normalizeReq req
  /\ (forall key, In key ["id"; "jsonrpc"; "method"; "params"] ->
        getField (normalizeReq req) key = getField req key)
  /\ (forall key, ~ In key ["id"; "jsonrpc"; "method"; "params"] ->
        getField (normalizeReq req) key = JUndefined).
Proof.
  split; [reflexivity|]. split.
  - intros key [<-|[<-|[<-|[<-|[]]]]]; reflexivity.
  - intros key Hn. unfold normalizeReq. cbn [getField].
    destruct (String.eqb_spec "id" key) as [E|_]; [elim Hn; subst key; simpl; auto 8|].
    destruct (String.eqb_spec "jsonrpc" key) as [E|_]; [elim Hn; subst key; simpl; auto 8|].
    destruct (String.eqb_spec "method" key) as [E|_]; [elim Hn; subst key; simpl; auto 8|].
    destruct (String.eqb_spec "params" key) as [E|_]; [elim Hn; subst key; simpl; auto 8|].
    reflexivity.
Qed.

End Translator.

(** C5, as stated, fails: a method with a [#] in it puts the query into
    the fragment of the URL, and no [params] value is left to read. *)
Lemma C5_method_with_fragment_loses_params :
  let req := [ ("id", JNum 1); ("jsonrpc", JStr "2.0");
               ("method", JStr "eth_getBalance#now"); ("params", JArr [JStr "0xab"]) ] in
  Array_includes Sample.postMethods (getField req "method") = false
  /\ json_roundtrips Sample.JSON_stringify Sample.JSON_parse (getField req "params")
  /\ exists cfg,
       fetchConfigFromReq Sample.postMethods Sample.JSON_stringify Sample.readyStore
                          (JStr "mainnet") req JUndefined JUndefined = Normal cfg
       /\ fetchUrl cfg
          = "https://mainnet-infura.brave.com/PID/eth_getBalance#now?params=%5B%220xab%22%5D"
       /\ params_read_back Sample.JSON_parse (fetchUrl cfg) = None
       /\ params_read_back Sample.JSON_parse (fetchUrl cfg) <> Some (getField req "params").
Proof.
  cbv zeta. split; [reflexivity|]. split.
  - eexists. split; reflexivity.
  - eexists. split; [reflexivity|]. split; [reflexivity|]. split; [reflexivity|].
    discriminate.
Qed.

(** ** The theorems at work on the sample runtime *)

Lemma sample_internal_string (msg : string) :
  has_retriable_phrase (Sample.rpcErrorString (Internal msg)) = has_retriable_phrase msg.
Proof. reflexivity. Qed.

Lemma no_phrase_in_permission_denied (phrase : string) :
  In phrase RETRIABLE_ERRORS ->
  includes phrase (toString Sample.rpcErrorString (Native "Error" "permission denied"))
  = false.
Proof. intros [<-|[<-|[<-|[<-|[]]]]]; reflexivity. Qed.

(** Containment is case-sensitive: the lower-case phrase is not retried. *)
Example lower_case_phrase_is_not_retriable :
  has_retriable_phrase "Error: etimedout" = false
  /\ has_retriable_phrase "Error: ETIMEDOUT" = true.
Proof. split; reflexivity. Qed.

Lemma C6_retries_exhausted_witness :
  let st' := after_fetches 2 (fetchUrl Sample.balanceConfig)
               (fetchParams Sample.balanceConfig)
               (ensureCredentials "PID" None Sample.freshStore) in
  let msg := exhaustedMessage Sample.rpcErrorString (Native "Error" "ETIMEDOUT") in
  Sample.run Sample.timingOut (Sample.middleware 2) Sample.balanceRequest Sample.freshStore
  = Some (Throw (Native "Error" msg), st')
  /\ fetch_count (trace st') = 2%nat
  /\ String.prefix "InfuraProvider" msg = true
  /\ includes "Error: ETIMEDOUT" msg = true
  /\ res st' = res Sample.freshStore.
Proof.
  exact (C6_retries_exhausted Sample.postMethods Sample.JSON_stringify Sample.JSON_parse
           Sample.StringToNumber Sample.rpcErrorString Sample.timingOut "PID" None
           (Sample.middleware 2) Sample.balanceRequest Sample.balanceConfig
           Sample.freshStore 2 (fun _ => Native "Error" "ETIMEDOUT")
           eq_refl ltac:(lia) eq_refl (fun _ => eq_refl) (fun _ => eq_refl)).
Defined.

Lemma C7_non_retriable_propagates_at_once_witness :
  let st' := after_fetch (fetchUrl Sample.balanceConfig) (fetchParams Sample.balanceConfig)
               (ensureCredentials "PID" None Sample.freshStore) in
  Sample.run Sample.denied (Sample.middleware 5) Sample.balanceRequest Sample.freshStore
  = Some (Throw (Native "Error" "permission denied"), st')
  /\ fetch_count (trace st') = 1%nat
  /\ res st' = res Sample.freshStore.
Proof.
  exact (C7_non_retriable_propagates_at_once Sample.postMethods Sample.JSON_stringify
           Sample.JSON_parse Sample.StringToNumber Sample.rpcErrorString Sample.denied
           "PID" None (Sample.middleware 5) Sample.balanceRequest Sample.balanceConfig
           Sample.freshStore 5 (Native "Error" "permission denied")
           eq_refl ltac:(lia) eq_refl eq_refl no_phrase_in_permission_denied).
Defined.

Lemma C9_success_on_third_attempt_witness :
  exists st',
    Sample.run Sample.thirdTimeLucky (Sample.middleware 3) Sample.balanceRequest
               Sample.freshStore
    = Some (Normal tt, st')
    /\ getField (res st') "result" = JStr "0x10"
    /\ getField (res st') "error" = JUndefined
    /\ fetch_count (trace st') = 3%nat.
Proof.
  eexists.
  exact (C9_success_on_third_attempt Sample.postMethods Sample.JSON_stringify
           Sample.JSON_parse Sample.StringToNumber Sample.rpcErrorString
           Sample.thirdTimeLucky "PID" None (Sample.middleware 3) Sample.balanceRequest
           Sample.balanceConfig Sample.freshStore 3
           (Native "FetchError" "socket hang up, reason: ECONNRESET")
           (Native "FetchError" "socket hang up, reason: ECONNRESET")
           (mkResponse 200 Sample.okBody)
           [("jsonrpc", JStr "2.0"); ("id", JNum 1); ("result", JStr "0x10")]
           eq_refl ltac:(lia) eq_refl eq_refl eq_refl eq_refl eq_refl eq_refl eq_refl
           eq_refl eq_refl).
Defined.

Lemma C3_block_not_found_gives_null_witness :
  let st' := mkStore "" "PID"
               (setField (res Sample.readyStore) "result" JNull)
               [EvFetch (fetchUrl Sample.blockConfig) (fetchParams Sample.blockConfig)] in
  Sample.attempt (Sample.answering (mkResponse 200 "Not Found")) (Sample.middleware 5)
                 Sample.blockRequest Sample.readyStore
  = (Normal tt, st')
  /\ getField (res st') "result" = JNull
  /\ getField (res st') "error" = getField (res Sample.readyStore) "error".
Proof.
  exact (C3_block_not_found_gives_null Sample.postMethods Sample.JSON_stringify
           Sample.JSON_parse (Sample.answering (mkResponse 200 "Not Found"))
           (JStr "mainnet") Sample.blockRequest (JStr "brave") JUndefined
           Sample.readyStore Sample.blockConfig (mkResponse 200 "Not Found")
           eq_refl eq_refl eq_refl eq_refl eq_refl).
Defined.

Lemma C8_status_switch_witness :
  exists err,
    Sample.attempt (Sample.answering (mkResponse 500 "upstream ECONNRESET"))
                   (Sample.middleware 5) Sample.balanceRequest Sample.readyStore
    = (Throw err,
       after_fetch (fetchUrl Sample.balanceConfig) (fetchParams Sample.balanceConfig)
                   Sample.readyStore)
    /\ (500 = 405 ->
        err = Rpc MethodNotFound
        /\ has_retriable_phrase (toString Sample.rpcErrorString err) = false)
    /\ (500 = 418 -> err = createInternalError "Request is being rate limited.")
    /\ (500 = 503 \/ 500 = 504 ->
        err = createInternalError "Gateway timeout, request took too long to process."
        /\ includes "Gateway timeout" "Gateway timeout, request took too long to process."
           = true
        /\ has_retriable_phrase (toString Sample.rpcErrorString err) = true)
    /\ (500 <> 405 -> 500 <> 418 -> 500 <> 503 -> 500 <> 504 ->
        err = createInternalError "upstream ECONNRESET"
        /\ has_retriable_phrase (toString Sample.rpcErrorString err)
           = has_retriable_phrase "upstream ECONNRESET").
Proof.
  exact (C8_status_switch Sample.postMethods Sample.JSON_stringify Sample.JSON_parse
           Sample.rpcErrorString
           (Sample.answering (mkResponse 500 "upstream ECONNRESET"))
           eq_refl sample_internal_string
           (JStr "mainnet") Sample.balanceRequest (JStr "brave") JUndefined
           Sample.readyStore Sample.balanceConfig
           (mkResponse 500 "upstream ECONNRESET") eq_refl eq_refl eq_refl).
Defined.

Lemma C10_performFetch_raise_leaves_res_witness :
  let st' := after_fetch (fetchUrl Sample.balanceConfig) (fetchParams Sample.balanceConfig)
               Sample.readyStore in
  res st' = res Sample.readyStore
  /\ getField (res st') "result" = getField (res Sample.readyStore) "result"
  /\ getField (res st') "error" = getField (res Sample.readyStore) "error".
Proof.
  exact (C10_performFetch_raise_leaves_res Sample.postMethods Sample.JSON_stringify
           Sample.JSON_parse (Sample.answering (mkResponse 200 "<html>busy</html>"))
           (JStr "mainnet") Sample.balanceRequest (JStr "brave") JUndefined
           Sample.readyStore (SyntaxError "Unexpected token in JSON") _ eq_refl).
Defined.

Lemma C4_post_body_has_the_four_fields_witness :
  exists body fields,
    getField (fetchParams Sample.blockConfig) "body" = JStr body
    /\ Sample.JSON_parse body = inr (JObj fields)
    /\ map fst fields = ["id"; "jsonrpc"; "method"; "params"]
    /\ fields = normalizeReq Sample.blockRequest
    /\ (forall req' cfg',
          normalizeReq req' = normalizeReq Sample.blockRequest ->
          fetchConfigFromReq Sample.postMethods Sample.JSON_stringify Sample.readyStore
                             (JStr "mainnet") req' (JStr "brave") JUndefined
          = Normal cfg' ->
          getField (fetchParams cfg') "body" = JStr body).
Proof.
  exact (C4_post_body_has_the_four_fields Sample.postMethods Sample.JSON_stringify
           Sample.JSON_parse Sample.readyStore (JStr "mainnet") Sample.blockRequest
           (JStr "brave") JUndefined Sample.blockConfig eq_refl eq_refl
           (ex_intro _ _ (conj eq_refl eq_refl))).
Defined.

Lemma C5_query_params_round_trip_witness :
  exists cfg,
    fetchConfigFromReq Sample.postMethods Sample.JSON_stringify Sample.readyStore
                       (JStr "mainnet") Sample.balanceRequest (JStr "brave") JUndefined
    = Normal cfg
    /\ params_read_back Sample.JSON_parse (fetchUrl cfg)
       = Some (JArr [JStr "0xab"; JStr "latest"]).
Proof.
  exact (C5_query_params_round_trip Sample.postMethods Sample.JSON_stringify
           Sample.JSON_parse Sample.readyStore (JStr "mainnet") Sample.balanceRequest
           (JStr "brave") JUndefined eq_refl (ex_intro _ _ (conj eq_refl eq_refl))
           eq_refl eq_refl eq_refl).
Defined.

(** C2 (the code does not do this).  With [maxAttempts = 2] and a transport
    that times out once and then answers, the second fetch follows the
    first with no timer armed in between: what is awaited is the function
    itself, which is never called. *)
Theorem C2_retry_arms_no_timer :
  exists st',
    Sample.run Sample.secondTimeLucky (Sample.middleware 2) Sample.balanceRequest
               Sample.freshStore
    = Some (Normal tt, st')
    /\ trace st'
       = [ EvFetch (fetchUrl Sample.balanceConfig) (fetchParams Sample.balanceConfig);
           EvFetch (fetchUrl Sample.balanceConfig) (fetchParams Sample.balanceConfig) ]
    /\ timers (trace st') = []
    /\ ~ In (EvSetTimeout 1000) (trace st').
Proof.
  eexists. split; [vm_compute; reflexivity|]. split; [reflexivity|].
  split; [reflexivity|].
  intros [H|[H|[]]]; discriminate H.
Qed.

(** ** The earlier translator against the current one *)

Section LegacyTranslator.

Variable postMethods : list string.
Variable JSON_stringify : JsValue -> JsValue.
Variable JSON_parse : string -> string + JsValue.

Local Abbreviation fetchConfig := (fetchConfigFromReq postMethods JSON_stringify).
Local Abbreviation legacyConfig := (Legacy.fetchConfigFromReq postMethods JSON_stringify).

(** X21.  The earlier translator sends, for a POST, [Accept],
    [Content-Type] and (when a source is configured) [Infura-Source] as the
    current one does, but its cache hint is the constant [true] whatever
    [params] is, and it sends neither [X-Eth-Method] nor [x-brave-key]. *)
Theorem legacy_post_headers g network req source :
  Array_includes postMethods (getField req "method") = true ->
  exists headers,
    getField (fetchParams (legacyConfig g network req source)) "headers" = JObj headers
    /\ getField headers "Accept" = JStr "application/json"
    /\ getField headers "Content-Type" = JStr "application/json"
    /\ getField headers "Infura-Source"
       = (if truthy source
          then JStr (ToString source ++ "/"
                     ++ ToString (js_or (getField req "origin") (JStr "internal")))
          else JUndefined)
    /\ getField headers "X-Eth-Get-Block"
       = (if strict_eq_str (getField req "method") "eth_getBlockByNumber"
          then JStr "true" else JUndefined)
    /\ getField headers "X-Eth-Block"
       = (if strict_eq_str (getField req "method") "eth_blockNumber"
          then JStr "true" else JUndefined)
    /\ getField headers "X-Eth-Method" = JUndefined
    /\ getField headers "x-brave-key" = JUndefined.
Proof.
  intros Hpost. unfold Legacy.fetchConfigFromReq, Legacy.getCacheHeader.
  cbn [getField String.eqb Ascii.eqb Bool.eqb]. rewrite Hpost.
  destruct (getField req "method") as [| | | | |s| |]; cbn [strict_eq_str].
  1-5, 7-8: destruct (truthy source); eexists; cbn; repeat split.
  destruct (String.eqb s "eth_getBlockByNumber") eqn:E.
  - apply String.eqb_eq in E. subst s.
    destruct (truthy source); eexists; cbn; repeat split.
  - destruct (String.eqb s "eth_blockNumber");
      destruct (truthy source); eexists; cbn; repeat split.
Qed.

(** X22.  Where the current translator builds a configuration, the earlier
    one agrees with it on the HTTP method and on the body, and for a GET on
    all of [fetchParams]. *)
Theorem legacy_agrees_on_method_and_body g network req source dev cfg :
  fetchConfig g network req source dev = Normal cfg ->
  let old := legacyConfig g network req source in
  getField (fetchParams old) "method" = getField (fetchParams cfg) "method"
  /\ getField (fetchParams old) "body" = getField (fetchParams cfg) "body"
  /\ (Array_includes postMethods (getField req "method") = false ->
      fetchParams old = fetchParams cfg).
Proof.
  unfold fetchConfigFromReq, Legacy.fetchConfigFromReq.
  cbn [getField String.eqb Ascii.eqb Bool.eqb].
  destruct (Array_includes postMethods (getField req "method")).
  - destruct (getCacheHeader _ _) as [h|e]; [|discriminate].
    intros H. inversion H. subst cfg. cbn. repeat split. discriminate.
  - intros H. inversion H. subst cfg. cbn.
    destruct (truthy source); cbn; repeat split.
Qed.

(** X23.  The round trip of the query string holds for the earlier
    translator as well: for a GET whose method, network name and project id
    contain neither [?] nor [#] and whose [params] is a JSON value, the
    [params] value of the URL, percent-decoded and parsed, is [params]. *)
Theorem legacy_query_params_round_trip g network req source :
  Array_includes postMethods (getField req "method") = false ->
  json_roundtrips JSON_stringify JSON_parse (getField req "params") ->
  no_url_delimiter (ToString network) = true ->
  no_url_delimiter (BRAVE_INFURA_PROJECT_ID g) = true ->
  no_url_delimiter (ToString (getField req "method")) = true ->
  params_read_back JSON_parse (fetchUrl (legacyConfig g network req source))
  = Some (getField req "params").
Proof.
  intros Hget (s & Hs & Hp) Hn Hg Hm.
  unfold Legacy.fetchConfigFromReq.
  cbn [getField String.eqb Ascii.eqb Bool.eqb]. rewrite Hget.
  cbn [fetchUrl]. rewrite Hs. cbn [ToString].
  rewrite <- !(append_assoc _ _ ("?params=" ++ encodeURIComponent s)).
  unfold params_read_back. rewrite url_param_of_encoded.
  - now rewrite decode_encode, Hp.
  - rewrite !no_url_delimiter_app, Hn, Hg, Hm. reflexivity.
Qed.

End LegacyTranslator.

(** ** The further properties at work on the sample runtime *)

Local Abbreviation on_sample thm transport :=
  (thm Sample.postMethods Sample.JSON_stringify Sample.JSON_parse Sample.StringToNumber
       Sample.rpcErrorString transport "PID" (@None string)).

Lemma handler_error_leaves_res_witness :
  exists e st',
    Sample.run Sample.timingOut (Sample.middleware 2) Sample.balanceRequest
               Sample.freshStore = Some (Throw e, st')
    /\ res st' = res Sample.freshStore.
Proof.
  eexists. eexists. split; [reflexivity|].
  exact (on_sample handler_error_leaves_res Sample.timingOut (Sample.middleware 2)
           Sample.balanceRequest Sample.freshStore _ _ eq_refl).
Defined.


Lemma handler_without_attempts_witness :
  Sample.run Sample.timingOut (Sample.middleware (-1)) Sample.balanceRequest
             Sample.freshStore
  = Some (Normal tt, ensureCredentials "PID" None Sample.freshStore)
  /\ trace (ensureCredentials "PID" None Sample.freshStore) = trace Sample.freshStore
  /\ res (ensureCredentials "PID" None Sample.freshStore) = res Sample.freshStore.
Proof.
  exact (on_sample handler_without_attempts Sample.timingOut (Sample.middleware (-1))
           Sample.balanceRequest Sample.freshStore eq_refl).
Defined.

Lemma reset_is_retriable (i : nat) :
  (i < 1)%nat ->
  Cases.resetThenDenied (fetch_count (trace Sample.freshStore) + i)%nat
    (fetchUrl Sample.balanceConfig) (fetchParams Sample.balanceConfig)
  = Rejected (Native "FetchError" "socket hang up, reason: ECONNRESET")
  /\ has_retriable_phrase
       (toString Sample.rpcErrorString
          (Native "FetchError" "socket hang up, reason: ECONNRESET")) = true.
Proof. intros H. destruct i; [split; reflexivity | lia]. Qed.

Lemma handler_stops_at_first_fatal_witness :
  let st' := after_fetches 2 (fetchUrl Sample.balanceConfig)
               (fetchParams Sample.balanceConfig)
               (ensureCredentials "PID" None Sample.freshStore) in
  Sample.run Cases.resetThenDenied (Sample.middleware 5) Sample.balanceRequest
             Sample.freshStore
  = Some (Throw (Native "Error" "permission denied"), st')
  /\ fetch_count (trace st') = 2%nat
  /\ res st' = res Sample.freshStore.
Proof.
  assert (H : 1 + 1 <= 5) by lia.
  exact (on_sample handler_stops_at_first_fatal Cases.resetThenDenied (Sample.middleware 5)
           Sample.balanceRequest Sample.balanceConfig Sample.freshStore 5 1%nat
           (fun _ => Native "FetchError" "socket hang up, reason: ECONNRESET")
           (Native "Error" "permission denied")
           eq_refl H eq_refl reset_is_retriable eq_refl eq_refl).
Defined.

Lemma timeout_is_retriable (i : nat) :
  (i < 1)%nat ->
  Sample.secondTimeLucky (fetch_count (trace Sample.freshStore) + i)%nat
    (fetchUrl Sample.balanceConfig) (fetchParams Sample.balanceConfig)
  = Rejected (Native "Error" "ETIMEDOUT")
  /\ has_retriable_phrase (toString Sample.rpcErrorString (Native "Error" "ETIMEDOUT"))
     = true.
Proof. intros H. destruct i; [split; reflexivity | lia]. Qed.

Lemma handler_stops_at_first_success_witness :
  exists st',
    Sample.run Sample.secondTimeLucky (Sample.middleware 5) Sample.balanceRequest
               Sample.freshStore = Some (Normal tt, st')
    /\ res st'
       = setField (setField (res Sample.freshStore) "result" (JStr "0x10"))
                  "error" JUndefined
    /\ getField (res st') "result" = JStr "0x10"
    /\ getField (res st') "error" = JUndefined
    /\ fetch_count (trace st') = 2%nat.
Proof.
  assert (H : 1 + 1 <= 5) by lia.
  exact (on_sample handler_stops_at_first_success Sample.secondTimeLucky
           (Sample.middleware 5) Sample.balanceRequest Sample.balanceConfig
           Sample.freshStore 5 1%nat (fun _ => Native "Error" "ETIMEDOUT")
           (mkResponse 200 Sample.okBody)
           [("jsonrpc", JStr "2.0"); ("id", JNum 1); ("result", JStr "0x10")]
           eq_refl H eq_refl timeout_is_retriable eq_refl eq_refl eq_refl eq_refl).
Defined.

Lemma handler_unparsable_bodies_exhaust_witness :
  let st' := after_fetches 2 (fetchUrl Sample.balanceConfig)
               (fetchParams Sample.balanceConfig)
               (ensureCredentials "PID" None Sample.freshStore) in
  Sample.run (Sample.answering (mkResponse 200 "<html>busy</html>")) (Sample.middleware 2)
             Sample.balanceRequest Sample.freshStore
  = Some (Throw (Native "Error"
                   (exhaustedMessage Sample.rpcErrorString
                      (SyntaxError "Unexpected token in JSON"))), st')
  /\ fetch_count (trace st') = 2%nat
  /\ res st' = res Sample.freshStore.
Proof.
  assert (H : 1 <= 2) by lia.
  exact (on_sample handler_unparsable_bodies_exhaust
           (Sample.answering (mkResponse 200 "<html>busy</html>")) (Sample.middleware 2)
           Sample.balanceRequest Sample.balanceConfig Sample.freshStore 2
           (fun _ => mkResponse 200 "<html>busy</html>")
           (fun _ => "Unexpected token in JSON")
           eq_refl H eq_refl (fun _ => eq_refl) (fun _ => eq_refl) (fun _ => eq_refl)
           (fun _ => eq_refl)).
Defined.

Lemma handler_gateway_timeouts_exhaust_witness :
  let st' := after_fetches 2 (fetchUrl Sample.balanceConfig)
               (fetchParams Sample.balanceConfig)
               (ensureCredentials "PID" None Sample.freshStore) in
  Sample.run (Sample.answering (mkResponse 504 "")) (Sample.middleware 2)
             Sample.balanceRequest Sample.freshStore
  = Some (Throw (Native "Error"
                   (exhaustedMessage Sample.rpcErrorString
                      (createInternalError
                         "Gateway timeout, request took too long to process."))), st')
  /\ fetch_count (trace st') = 2%nat
  /\ res st' = res Sample.freshStore.
Proof.
  assert (H : 1 <= 2) by lia.
  exact (on_sample handler_gateway_timeouts_exhaust
           (Sample.answering (mkResponse 504 "")) (Sample.middleware 2)
           Sample.balanceRequest Sample.balanceConfig Sample.freshStore 2
           (fun _ => mkResponse 504 "")
           eq_refl eq_refl H eq_refl (fun _ => eq_refl) (fun _ => or_intror eq_refl)).
Defined.

Lemma handler_rate_limited_fails_at_once_witness :
  let st' := after_fetch (fetchUrl Sample.balanceConfig) (fetchParams Sample.balanceConfig)
               (ensureCredentials "PID" None Sample.freshStore) in
  Sample.run (Sample.answering (mkResponse 418 "teapot")) (Sample.middleware 5)
             Sample.balanceRequest Sample.freshStore
  = Some (Throw (createInternalError "Request is being rate limited."), st')
  /\ fetch_count (trace st') = 1%nat
  /\ res st' = res Sample.freshStore.
Proof.
  assert (H : 1 <= 5) by lia.
  exact (on_sample handler_rate_limited_fails_at_once
           (Sample.answering (mkResponse 418 "teapot")) (Sample.middleware 5)
           Sample.balanceRequest Sample.balanceConfig Sample.freshStore 5
           (mkResponse 418 "teapot") eq_refl eq_refl H eq_refl eq_refl eq_refl).
Defined.

Lemma handler_null_body_fails_at_once_witness :
  let st' := after_fetch (fetchUrl Sample.balanceConfig) (fetchParams Sample.balanceConfig)
               (ensureCredentials "PID" None Sample.freshStore) in
  Sample.run (Sample.answering (mkResponse 200 "null")) (Sample.middleware 5)
             Sample.balanceRequest Sample.freshStore
  = Some (Throw (TypeError "Cannot read property 'result' of null"), st')
  /\ fetch_count (trace st') = 1%nat
  /\ res st' = res Sample.freshStore.
Proof.
  assert (H : 1 <= 5) by lia.
  exact (on_sample handler_null_body_fails_at_once
           (Sample.answering (mkResponse 200 "null")) (Sample.middleware 5)
           Sample.balanceRequest Sample.balanceConfig Sample.freshStore 5
           (mkResponse 200 "null") eq_refl H eq_refl eq_refl eq_refl eq_refl eq_refl).
Defined.

Lemma exhausted_error_is_retriable_witness :
  has_retriable_phrase
    (toString Sample.rpcErrorString
       (Native "Error"
          (exhaustedMessage Sample.rpcErrorString (Native "Error" "ETIMEDOUT"))))
  = true.
Proof.
  exact (exhausted_error_is_retriable Sample.rpcErrorString (Native "Error" "ETIMEDOUT")
           eq_refl).
Defined.

Lemma handler_credentials_witness :
  exists c st',
    handler Sample.postMethods Sample.JSON_stringify Sample.JSON_parse
            Sample.StringToNumber Sample.rpcErrorString Sample.secondTimeLucky
            "PID" (Some "KEY") (Sample.middleware 2) Sample.balanceRequest
            Sample.freshStore = Some (c, st')
    /\ BRAVE_INFURA_PROJECT_ID st' = "PID"
    /\ BRAVE_KEY st' = "KEY".
Proof.
  eexists. eexists. split; [reflexivity|].
  exact (handler_credentials Sample.postMethods Sample.JSON_stringify Sample.JSON_parse
           Sample.StringToNumber Sample.rpcErrorString Sample.secondTimeLucky
           "PID" (Some "KEY") (Sample.middleware 2) Sample.balanceRequest
           Sample.freshStore _ _ eq_refl).
Defined.

Lemma handler_untranslatable_request_witness :
  Sample.run Sample.timingOut (Sample.middleware 5) Cases.blockRequestNoParams
             Sample.freshStore
  = Some (Throw (TypeError "Cannot read property 'toString' of undefined"),
          ensureCredentials "PID" None Sample.freshStore)
  /\ trace (ensureCredentials "PID" None Sample.freshStore) = trace Sample.freshStore
  /\ res (ensureCredentials "PID" None Sample.freshStore) = res Sample.freshStore.
Proof.
  assert (H : 1 <= 5) by lia.
  exact (on_sample handler_untranslatable_request Sample.timingOut (Sample.middleware 5)
           Cases.blockRequestNoParams Sample.freshStore 5 _ eq_refl H eq_refl).
Defined.

Lemma performFetch_scalar_body_witness :
  exists st',
    Sample.attempt (Sample.answering (mkResponse 200 "true")) (Sample.middleware 5)
                   Sample.balanceRequest Sample.readyStore = (Normal tt, st')
    /\ getField (res st') "result" = JUndefined
    /\ getField (res st') "error" = JUndefined.
Proof.
  exact (performFetch_scalar_body Sample.postMethods Sample.JSON_stringify
           Sample.JSON_parse (Sample.answering (mkResponse 200 "true"))
           (JStr "mainnet") Sample.balanceRequest (JStr "brave") JUndefined
           Sample.readyStore Sample.balanceConfig (mkResponse 200 "true") (JBool true)
           eq_refl eq_refl eq_refl eq_refl eq_refl I).
Defined.

Lemma default_is_five_attempts_witness :
  let st' := after_fetches 5 (fetchUrl Cases.plainBalanceConfig)
               (fetchParams Cases.plainBalanceConfig)
               (ensureCredentials "PID" None Sample.freshStore) in
  Sample.run Sample.timingOut
             (mkMiddleware (JStr "mainnet") (JNum 5) JUndefined JUndefined)
             Sample.balanceRequest Sample.freshStore
  = Some (Throw (Native "Error"
                   (exhaustedMessage Sample.rpcErrorString (Native "Error" "ETIMEDOUT"))),
          st')
  /\ fetch_count (trace st') = 5%nat.
Proof.
  exact (on_sample default_is_five_attempts Sample.timingOut Cases.noOptions
           (mkMiddleware (JStr "mainnet") (JNum 5) JUndefined JUndefined)
           Sample.balanceRequest Cases.plainBalanceConfig Sample.freshStore
           (fun _ => Native "Error" "ETIMEDOUT")
           eq_refl eq_refl eq_refl (fun _ => eq_refl) (fun _ => eq_refl)).
Defined.

Lemma other_extras_agree (key : string) :
  In key ["id"; "jsonrpc"; "method"; "params"; "origin"] ->
  getField Cases.blockRequestOtherExtras key = getField Sample.blockRequest key.
Proof. intros [<-|[<-|[<-|[<-|[<-|[]]]]]]; reflexivity. Qed.

Lemma fetchConfigFromReq_reads_five_fields_witness :
  fetchConfigFromReq Sample.postMethods Sample.JSON_stringify Sample.readyStore
                     (JStr "mainnet") Cases.blockRequestOtherExtras (JStr "brave") JUndefined
  = fetchConfigFromReq Sample.postMethods Sample.JSON_stringify Sample.readyStore
                       (JStr "mainnet") Sample.blockRequest (JStr "brave") JUndefined.
Proof.
  exact (fetchConfigFromReq_reads_five_fields Sample.postMethods Sample.JSON_stringify
           Sample.readyStore (JStr "mainnet") Sample.blockRequest
           Cases.blockRequestOtherExtras (JStr "brave") JUndefined other_extras_agree).
Defined.

Lemma post_headers_witness :
  exists headers,
    getField (fetchParams Sample.blockConfig) "headers" = JObj headers
    /\ getField (fetchParams Sample.blockConfig) "method" = JStr "POST"
    /\ fetchUrl Sample.blockConfig = "https://mainnet-infura.brave.com/PID"
    /\ getField headers "Accept" = JStr "application/json"
    /\ getField headers "Content-Type" = JStr "application/json"
    /\ getField headers "X-Eth-Method" = JStr "eth_getBlockByNumber"
    /\ getField headers "Infura-Source" = JStr "brave/example.org"
    /\ getField headers "x-brave-key" = JUndefined.
Proof.
  exact (post_headers Sample.postMethods Sample.JSON_stringify Sample.readyStore
           (JStr "mainnet") Sample.blockRequest (JStr "brave") JUndefined
           Sample.blockConfig eq_refl eq_refl).
Defined.



Lemma legacy_post_headers_witness :
  exists headers,
    getField (fetchParams (Legacy.fetchConfigFromReq Sample.postMethods
                             Sample.JSON_stringify Sample.readyStore (JStr "mainnet")
                             Cases.blockRequestNoParams (JStr "brave")))
             "headers" = JObj headers
    /\ getField headers "Accept" = JStr "application/json"
    /\ getField headers "Content-Type" = JStr "application/json"
    /\ getField headers "Infura-Source" = JStr "brave/internal"
    /\ getField headers "X-Eth-Get-Block" = JStr "true"
    /\ getField headers "X-Eth-Block" = JUndefined
    /\ getField headers "X-Eth-Method" = JUndefined
    /\ getField headers "x-brave-key" = JUndefined.
Proof.
  exact (legacy_post_headers Sample.postMethods Sample.JSON_stringify Sample.readyStore
           (JStr "mainnet") Cases.blockRequestNoParams (JStr "brave") eq_refl).
Defined.

Lemma legacy_agrees_on_method_and_body_witness :
  let old := Legacy.fetchConfigFromReq Sample.postMethods Sample.JSON_stringify
               Sample.readyStore (JStr "mainnet") Sample.blockRequest (JStr "brave") in
  getField (fetchParams old) "method" = JStr "POST"
  /\ getField (fetchParams old) "body" = getField (fetchParams Sample.blockConfig) "body"
  /\ (Array_includes Sample.postMethods (getField Sample.blockRequest "method") = false ->
      fetchParams old = fetchParams Sample.blockConfig).
Proof.
  exact (legacy_agrees_on_method_and_body Sample.postMethods Sample.JSON_stringify
           Sample.readyStore (JStr "mainnet") Sample.blockRequest (JStr "brave")
           JUndefined Sample.blockConfig eq_refl).
Defined.

Lemma legacy_query_params_round_trip_witness :
  params_read_back Sample.JSON_parse
    (fetchUrl (Legacy.fetchConfigFromReq Sample.postMethods Sample.JSON_stringify
                 Sample.readyStore (JStr "mainnet") Sample.balanceRequest (JStr "brave")))
  = Some (JArr [JStr "0xab"; JStr "latest"]).
Proof.
  exact (legacy_query_params_round_trip Sample.postMethods Sample.JSON_stringify
           Sample.JSON_parse Sample.readyStore (JStr "mainnet") Sample.balanceRequest
           (JStr "brave") eq_refl (ex_intro _ _ (conj eq_refl eq_refl))
           eq_refl eq_refl eq_refl).
Defined.
